(** * The sandboxed code runner: [src/app/api/run/route.ts]

    A shallow embedding of the request handler [POST] and of its helper
    [dockerArgs], followed by the properties of the handler.

    The handler talks to the outside world (request body, file system,
    the [docker] child process, a timer).  The outcome of each of these
    calls is supplied by a [World]; the handler itself is a function in a
    small state-and-exception monad over a [Host], which records the
    temporary directories that exist and the chronological list of the
    calls the handler issued.

    Scope of the model.  The fields of the request body that are present
    are strings, as [RunBody] declares them.  A call either returns or
    throws (a promise resolves or rejects); ['error'] events emitted later
    by the child process are not modelled.  A process that receives
    [SIGKILL] closes, and closes without an exit code.

    After the runner come its caller, [runCode] of the sandbox pane
    ([interview/page.tsx]), the chat route ([src/app/api/chat/route.ts])
    and, from the chat page, [stripHtml] and the message shown for a failed
    request.  Text that crosses the network (JSON bodies, encoded chunks)
    arrives as it was sent. *)

From Stdlib Require Import ZArith QArith Ascii String List Sorted Lia DecimalString.
From stdpp Require Import gmap strings list.

Local Open Scope string_scope.
Local Open Scope Z_scope.
Local Open Scope list_scope.

(** ** JavaScript values used by the handler *)

Module Js.

(** Strings are sequences of code units; [s.length] counts them. *)
Definition length (s : string) : Z := Z.of_nat (String.length s).

(** [s.repeat(n)], used to build large inputs. *)
Definition repeat (s : string) (n : Z) : string :=
  N.iter (Z.to_N n) (String.append s) "".

(** Truthiness of a string: [""] is falsy, every other string is truthy. *)
Definition truthy (s : string) : bool := negb (String.eqb s "").

(** [xs.includes(x)] on an array of strings. *)
Fixpoint includes (xs : list string) (x : string) : bool :=
  match xs with
  | [] => false
  | y :: ys => String.eqb y x || includes ys x
  end.

(** [a ?? b] where [None] stands for [null]. *)
Definition nullish {A} (a : option A) (b : A) : A :=
  match a with
  | Some v => v
  | None => b
  end.

(** [acc += d] for every chunk [d] of a stream, starting from [""]. *)
Definition accumulate (chunks : list string) : string :=
  fold_left String.append chunks "".

(** [path.join(a, b)] for the POSIX paths the handler builds. *)
Definition path_join (a b : string) : string := a +:+ "/" +:+ b.

(** A thrown [Error] with its [message]. *)
Inductive Thrown := Error (message : string).

Definition message (e : Thrown) : string :=
  match e with Error m => m end.

(** The result of a call that either returns or throws (for a promise:
    resolves or rejects). *)
Inductive Result (A : Type) :=
| Ok (a : A)
| Throw (e : Thrown).
Arguments Ok {A} a.
Arguments Throw {A} e.

End Js.

Import Js.

(** ** Constants of the runner *)

Definition LIMIT_SECONDS : Z := 6.
Definition LIMIT_MEMORY : string := "256m".
Definition LIMIT_CPUS : string := "0.5".

(** The size ceiling on submitted source, [300_000]. *)
Definition CODE_LIMIT : Z := 300000.

(** The array literal of the language check. *)
Definition LANGUAGES : list string := ["python"; "node"; "c"; "cpp"; "java"].

(** ** [dockerArgs] *)

Definition mountSpec (dir : string) : string := dir +:+ ":/workspace:ro".

Definition common (dir : string) : list string :=
  [ "run"; "--rm";
    "--network"; "none";
    "--cpus"; LIMIT_CPUS;
    "--memory"; LIMIT_MEMORY;
    "--pids-limit"; "64";
    "--read-only";
    "--tmpfs"; "/tmp:rw,nosuid,nodev,noexec,size=64m";
    "--cap-drop"; "ALL";
    "--security-opt"; "no-new-privileges";
    "-v"; mountSpec dir;
    "-w"; "/workspace";
    "--user"; "1000:1000" ].

Definition dockerArgs (language dir fileBase : string) : Result (list string) :=
  if String.eqb language "python" then
    Ok (common dir ++ ["python:3.11-alpine"; "python"; fileBase +:+ ".py"])
  else if String.eqb language "node" then
    Ok (common dir ++ ["node:20-alpine"; "node"; fileBase +:+ ".js"])
  else if String.eqb language "c" then
    Ok (common dir ++
        [ "gcc:13"; "/bin/sh"; "-lc";
          "cp /workspace/" +:+ fileBase +:+ ".c /tmp && gcc -O2 -pipe /tmp/"
            +:+ fileBase +:+ ".c -o /tmp/main && /tmp/main" ])
  else if String.eqb language "cpp" then
    Ok (common dir ++
        [ "gcc:13"; "/bin/sh"; "-lc";
          "cp /workspace/" +:+ fileBase +:+ ".cpp /tmp && g++ -O2 -pipe /tmp/"
            +:+ fileBase +:+ ".cpp -o /tmp/main && /tmp/main" ])
  else if String.eqb language "java" then
    Ok (common dir ++
        [ "openjdk:21-jdk-slim"; "/bin/sh"; "-lc";
          "cp /workspace/Main.java /tmp && javac -d /tmp /tmp/Main.java && cd /tmp && java Main" ])
  else
    Throw (Error ("Unsupported language: " +:+ language)).

(** ** The outside world *)

(** The parsed request body, [RunBody].  A field that is missing from the
    JSON object is [None] ([undefined] in the handler); [language] is kept
    as the raw string that arrived, since the handler checks it itself. *)
Record RunBody := {
  language : option string;
  code : option string;
  stdin : option string;
}.

(** How the spawned [docker] process ends, with the time in milliseconds
    after the deadline timer was armed.  ['close'] carries the exit code
    when the process exits by itself and [null] when a signal ended it. *)
Inductive Fate :=
| ExitsAt (ms : Z) (exit_code : Z)
| SignalledAt (ms : Z)
| NeverEnds.

(** The spawned process as the handler observes it: the chunks its
    ['data'] listeners receive on each stream before ['close'], and the
    way the process ends when left alone. *)
Record Child := {
  stdout_data : list string;
  stderr_data : list string;
  fate : Fate;
}.

(** One outcome for each call the handler makes to its environment. *)
Record World := {
  w_json : Result RunBody;       (* await req.json() *)
  w_tmpdir : string;             (* os.tmpdir() *)
  w_mkdtemp : Result string;     (* fs.mkdtemp: the random suffix it appends *)
  w_writeFile : Result unit;     (* fs.writeFile *)
  w_spawn : Result Child;        (* spawn("docker", args, ...) *)
  w_rm : Result unit;            (* fs.rm(dir, { recursive, force }) *)
}.

(** The calls the handler issues, in the order it issues them. *)
Inductive Event :=
| EMkdtemp (prefix : string)
| EWriteFile (path data : string)
| ESpawn (command : string) (args : list string)
| EStdinWrite (data : string)
| EStdinEnd
| ESetTimeout (ms : Z)
| EKill (signal : string)
| EClearTimeout
| ERm (path : string).

(** The host: the temporary directories that exist, and the calls made. *)
Record Host := {
  dirs : gset string;
  trace : list Event;
}.

(** ** The response *)

Inductive Payload :=
| ErrorPayload (error : string)
| ResultPayload (exitCode : Z) (stdout stderr : string) (timedOut : bool).

(** [payload] is the object handed to [JSON.stringify]. *)
Record Response := {
  status : Z;
  content_type : string;
  payload : Payload;
}.

Definition json (data : Payload) (status : Z) : Response :=
  {| status := status; content_type := "application/json"; payload := data |}.

(** ** A monad for the handler: host state and exceptions *)

Definition M (A : Type) : Type := Host -> Host * Result A.

Definition ret {A} (a : A) : M A := fun h => (h, Ok a).

Definition throw {A} (e : Thrown) : M A := fun h => (h, Throw e).

Definition bind {A B} (m : M A) (k : A -> M B) : M B :=
  fun h =>
    match m h with
    | (h', Ok a) => k a h'
    | (h', Throw e) => (h', Throw e)
    end.

Notation "'let*' x := m 'in' k" := (bind m (fun x => k))
  (at level 10, x name, m at level 100, k at level 200).
Notation "'do' m 'then' k" := (bind m (fun _ => k))
  (at level 10, m at level 100, k at level 200).

(** [try { m } catch (e) { handler e }]; the result is always a value. *)
Definition try_catch {A} (m : M A) (handler : Thrown -> A) : Host -> Host * A :=
  fun h =>
    match m h with
    | (h', Ok a) => (h', a)
    | (h', Throw e) => (h', handler e)
    end.

Definition lift {A} (r : Result A) : M A :=
  match r with
  | Ok a => ret a
  | Throw e => throw e
  end.

Definition call (e : Event) : M unit :=
  fun h => ({| dirs := dirs h; trace := trace h ++ [e] |}, Ok tt).

Definition create_dir (dir : string) : M unit :=
  fun h => ({| dirs := {[dir]} ∪ dirs h; trace := trace h |}, Ok tt).

Definition remove_dir (dir : string) : M unit :=
  fun h => ({| dirs := dirs h ∖ {[dir]}; trace := trace h |}, Ok tt).

(** ** The calls of the handler *)

Section Handler.

Variable w : World.

(** [await fs.mkdtemp(prefix)]: the new directory is [prefix] followed by
    a random suffix. *)
Definition fs_mkdtemp (prefix : string) : M string :=
  do call (EMkdtemp prefix) then
  let* suffix := lift (w_mkdtemp w) in
  do create_dir (prefix +:+ suffix) then
  ret (prefix +:+ suffix).

(** [await fs.writeFile(path, data, "utf8")]. *)
Definition fs_writeFile (path data : string) : M unit :=
  do call (EWriteFile path data) then
  lift (w_writeFile w).

(** [spawn(command, args, { stdio: ["pipe", "pipe", "pipe"] })]. *)
Definition spawn (command : string) (args : list string) : M Child :=
  do call (ESpawn command args) then
  lift (w_spawn w).

(** [fs.rm(dir, { recursive: true, force: true }).catch(() => {})]: not
    awaited, and a rejection is swallowed. *)
Definition fs_rm_detached (dir : string) : M unit :=
  do call (ERm dir) then
  match w_rm w with
  | Ok _ => remove_dir dir
  | Throw _ => ret tt
  end.

(** Whether the timer armed for [LIMIT_SECONDS * 1000] ms runs its
    callback before the process has ended. *)
Definition deadline_first (f : Fate) : bool :=
  match f with
  | ExitsAt ms _ => LIMIT_SECONDS * 1000 <=? ms
  | SignalledAt ms => LIMIT_SECONDS * 1000 <=? ms
  | NeverEnds => true
  end.

(** Waiting for ['close'] while the timer is armed.  The value is the
    [code] argument of the listener: the exit code, or [None] for [null].
    When the timer runs first its callback sends [SIGKILL], and the
    process then closes without an exit code. *)
Definition await_close (proc : Child) : M (option Z) :=
  if deadline_first (fate proc) then
    do call (EKill "SIGKILL") then
    ret None
  else
    match fate proc with
    | ExitsAt _ c => ret (Some c)
    | SignalledAt _ => ret None
    | NeverEnds => ret None
    end.

(** ** Request validation (the two [if]s at the top of [POST]) *)

(** [!language || ![...].includes(language)]: [None] when the request is
    rejected, the language otherwise. *)
Definition check_language (language : option string) : option string :=
  match language with
  | None => None
  | Some l =>
      if negb (truthy l) || negb (includes LANGUAGES l) then None else Some l
  end.

(** [!code || code.length > 300_000]: [None] when the request is
    rejected, the source text otherwise. *)
Definition check_code (code : option string) : option string :=
  match code with
  | None => None
  | Some c =>
      if negb (truthy c) || (Js.length c >? CODE_LIMIT) then None else Some c
  end.

(** The [switch] that picks the source file: [(filename, fileBase)]. *)
Definition source_file (language : string) : string * string :=
  let fileBase := "main" in
  if String.eqb language "python" then (fileBase +:+ ".py", fileBase)
  else if String.eqb language "node" then (fileBase +:+ ".js", fileBase)
  else if String.eqb language "c" then (fileBase +:+ ".c", fileBase)
  else if String.eqb language "cpp" then (fileBase +:+ ".cpp", fileBase)
  else if String.eqb language "java" then ("Main.java", "Main")
  else ("", fileBase).

(** ** [POST] *)

(** The body of the [try] block. *)
Definition POST_try : M Response :=
  let* body := lift (w_json w) in
  match check_language (language body) with
  | None => ret (json (ErrorPayload "Unsupported or missing language") 400)
  | Some language =>
    match check_code (code body) with
    | None => ret (json (ErrorPayload "Missing code or too large") 413)
    | Some code =>
      let* dir := fs_mkdtemp (path_join (w_tmpdir w) "run-") in
      let '(filename, fileBase) := source_file language in
      do fs_writeFile (path_join dir filename) code then
      let* args := lift (dockerArgs language dir fileBase) in
      let* proc := spawn "docker" args in
      do (match stdin body with
          | Some s => if truthy s then call (EStdinWrite s) else ret tt
          | None => ret tt
          end) then
      do call EStdinEnd then
      do call (ESetTimeout (LIMIT_SECONDS * 1000)) then
      let* close_code := await_close proc in
      let exitCode := nullish close_code 137 in
      let stdout := accumulate (stdout_data proc) in
      let stderr := accumulate (stderr_data proc) in
      do call EClearTimeout then
      do fs_rm_detached dir then
      ret (json (ResultPayload exitCode stdout stderr
                   ((exitCode =? 137) && negb (truthy stdout) && negb (truthy stderr)))
                200)
    end
  end.

(** The [catch] block: [e?.message || "runner error"], status 500. *)
Definition POST_catch (e : Thrown) : Response :=
  json (ErrorPayload (if truthy (message e) then message e else "runner error")) 500.

Definition POST : Host -> Host * Response :=
  try_catch POST_try POST_catch.

End Handler.

(** A host on which nothing has happened yet. *)
Definition host0 : Host := {| dirs := ∅; trace := [] |}.

(** * Vocabulary of the properties *)

(** ** Validation in the words of the interface *)

(** The [language] field is present and is one of the five identifiers. *)
Definition recognized (language : option string) : Prop :=
  exists l, language = Some l /\ l ∈ LANGUAGES.

(** The [code] field is absent, empty, or longer than the ceiling. *)
Definition unacceptable_code (code : option string) : Prop :=
  code = None \/ exists c, code = Some c /\ (c = "" \/ CODE_LIMIT < Js.length c).

(** ** The run of an accepted request *)

(** The prefix handed to [fs.mkdtemp], and the workspace directory: the
    prefix followed by the suffix that [fs.mkdtemp] chose. *)
Definition run_prefix (w : World) : string := path_join (w_tmpdir w) "run-".

Definition workspace (w : World) (suffix : string) : string :=
  run_prefix w +:+ suffix.

(** The calls on the input stream of the child. *)
Definition stdin_calls (stdin : option string) : list Event :=
  match stdin with
  | Some s => if truthy s then [EStdinWrite s] else []
  | None => []
  end ++ [EStdinEnd].

(** The call made by the timer callback, if it runs. *)
Definition kill_calls (proc : Child) : list Event :=
  if deadline_first (fate proc) then [EKill "SIGKILL"] else [].

(** The [code] argument that ['close'] delivers. *)
Definition close_code (proc : Child) : option Z :=
  if deadline_first (fate proc) then None
  else match fate proc with
       | ExitsAt _ c => Some c
       | SignalledAt _ => None
       | NeverEnds => None
       end.

(** The result object of a run that reached ['close']. *)
Definition result_of (proc : Child) : Payload :=
  let exitCode := nullish (close_code proc) 137 in
  let stdout := accumulate (stdout_data proc) in
  let stderr := accumulate (stderr_data proc) in
  ResultPayload exitCode stdout stderr
    ((exitCode =? 137) && negb (truthy stdout) && negb (truthy stderr)).

(** ** What one request does, seen from outside *)

(** The calls issued while handling the request, and the response. *)
Definition calls (w : World) : list Event := trace (fst (POST w host0)).
Definition response (w : World) : Response := snd (POST w host0).

(** The directories left on the host once the response is produced. *)
Definition dirs_after (w : World) (h : Host) : gset string := dirs (fst (POST w h)).

#[global] Instance Event_eq_dec : EqDecision Event.
Proof. solve_decision. Defined.

(** The exits of [POST], one constructor for each. *)
Inductive Exit (w : World) : Prop :=
| ExitParseError e :
    w_json w = Throw e -> Exit w
| ExitLanguage body :
    w_json w = Ok body -> check_language (language body) = None -> Exit w
| ExitCode body l :
    w_json w = Ok body -> check_language (language body) = Some l ->
    check_code (code body) = None -> Exit w
| ExitMkdtemp body l c e :
    w_json w = Ok body -> check_language (language body) = Some l ->
    check_code (code body) = Some c -> w_mkdtemp w = Throw e -> Exit w
| ExitWriteFile body l c suffix e :
    w_json w = Ok body -> check_language (language body) = Some l ->
    check_code (code body) = Some c -> w_mkdtemp w = Ok suffix ->
    w_writeFile w = Throw e -> Exit w
| ExitSpawn body l c suffix args e :
    w_json w = Ok body -> check_language (language body) = Some l ->
    check_code (code body) = Some c -> w_mkdtemp w = Ok suffix ->
    w_writeFile w = Ok tt ->
    dockerArgs l (workspace w suffix) (snd (source_file l)) = Ok args ->
    w_spawn w = Throw e -> Exit w
| ExitCompleted body l c suffix args proc :
    w_json w = Ok body -> check_language (language body) = Some l ->
    check_code (code body) = Some c -> w_mkdtemp w = Ok suffix ->
    w_writeFile w = Ok tt ->
    dockerArgs l (workspace w suffix) (snd (source_file l)) = Ok args ->
    w_spawn w = Ok proc -> Exit w.

(** ** The deadline *)

(** The timer callback ran: the handler sent [SIGKILL] to the process. *)
Definition killed_by_deadline (w : World) : Prop := EKill "SIGKILL" ∈ calls w.

(** ** Options on the [docker run] command line *)

(** The option [k] is given with the value [v]. *)
Definition has_option (k v : string) (args : list string) : Prop :=
  exists pre post, args = pre ++ k :: v :: post.

(** The constraints every run is launched under, for the workspace [dir]. *)
Record isolated (dir : string) (args : list string) : Prop := {
  no_network : has_option "--network" "none" args;
  cpu_limit : has_option "--cpus" LIMIT_CPUS args;
  memory_limit : has_option "--memory" LIMIT_MEMORY args;
  process_limit : has_option "--pids-limit" "64" args;
  read_only_root : "--read-only" ∈ args;
  scratch_area : has_option "--tmpfs" "/tmp:rw,nosuid,nodev,noexec,size=64m" args;
  no_capabilities : has_option "--cap-drop" "ALL" args;
  no_escalation : has_option "--security-opt" "no-new-privileges" args;
  unprivileged_user : has_option "--user" "1000:1000" args;
  workspace_read_only : has_option "-v" (dir +:+ ":/workspace:ro") args;
}.

(** ** The input stream of the child *)

(** What the child reads on its input stream: the data written before the
    stream is ended, or [None] when the stream is never ended. *)
Fixpoint stdin_stream (evs : list Event) (written : string) : option string :=
  match evs with
  | [] => None
  | EStdinWrite d :: evs' => stdin_stream evs' (written +:+ d)
  | EStdinEnd :: _ => Some written
  | _ :: evs' => stdin_stream evs' written
  end.

(** ** The output of the child *)

(** The chunks of a stream, one after the other. *)
Definition concatenation (chunks : list string) : string :=
  foldr String.append "" chunks.

Definition total_length (chunks : list string) : Z :=
  foldr (fun d n => Js.length d + n) 0 chunks.

(** ** Statements of the interface that the handler does not meet *)

(** The [code] field is absent or longer than the ceiling. *)
Definition absent_or_oversized (code : option string) : Prop :=
  code = None \/ exists c, code = Some c /\ CODE_LIMIT < Js.length c.

(** Each field decides its own status: 400 for the language, 413 for the
    code, whatever the other field is; nothing is allocated either way. *)
Definition rejections_by_field (w : World) (h : Host) : Prop :=
  forall body, w_json w = Ok body ->
    (~ recognized (language body) ->
       status (response w) = 400 /\ calls w = [] /\ dirs_after w h = dirs h) /\
    (absent_or_oversized (code body) ->
       status (response w) = 413 /\ calls w = [] /\ dirs_after w h = dirs h).

(** [timedOut] holds exactly for a run killed by the deadline timer that
    produced no output. *)
Definition timedOut_iff_deadline_kill (w : World) : Prop :=
  forall ec out err t,
    response w = json (ResultPayload ec out err t) 200 ->
    (t = true <-> killed_by_deadline w /\ out = "" /\ err = "").

(** 137 is reported when the deadline comes first, and by no run that
    exits on its own. *)
Definition sentinel_tells_timeout (w : World) : Prop :=
  forall proc ec out err t,
    w_spawn w = Ok proc ->
    response w = json (ResultPayload ec out err t) 200 ->
    (deadline_first (fate proc) = true -> killed_by_deadline w /\ ec = 137) /\
    (forall ms c, fate proc = ExitsAt ms c -> ms < LIMIT_SECONDS * 1000 -> ec <> 137).

(** Both captured streams stay within the ceiling on submitted source. *)
Definition output_within_ceiling (w : World) : Prop :=
  forall ec out err t,
    response w = json (ResultPayload ec out err t) 200 ->
    Js.length out <= CODE_LIMIT /\ Js.length err <= CODE_LIMIT.

(** ** Sample requests *)

(** A world in which every call succeeds: the request [body] arrives, the
    workspace is [/tmp/run-Ab12Cd], and the process behaves as [proc]. *)
Definition world_of (body : RunBody) (proc : Child) : World :=
  {| w_json := Ok body; w_tmpdir := "/tmp"; w_mkdtemp := Ok "Ab12Cd";
     w_writeFile := Ok tt; w_spawn := Ok proc; w_rm := Ok tt |}.

Definition silent_exit (ms exit_code : Z) : Child :=
  {| stdout_data := []; stderr_data := []; fate := ExitsAt ms exit_code |}.

Definition python_body (code : string) : RunBody :=
  {| language := Some "python"; code := Some code; stdin := None |}.

(** An echo program fed one line. *)
Definition echo_world : World :=
  world_of {| language := Some "python"; code := Some "print(input(), end='')";
              stdin := Some "hello" |}
           {| stdout_data := ["hello"]; stderr_data := []; fate := ExitsAt 120 0 |}.

(** The same request with no [stdin] field; the program fails on EOF (its
    traceback is cut to the last line). *)
Definition echo_world_no_stdin : World :=
  world_of (python_body "print(input(), end='')")
           {| stdout_data := []; stderr_data := ["EOFError: EOF when reading a line"]; fate := ExitsAt 110 1 |}.

(** Another Python request that lands on the same workspace path. *)
Definition other_python_world : World :=
  world_of {| language := Some "python"; code := Some "import os"; stdin := Some "x" |}
           (silent_exit 80 0).

(** The disk is full when the source file is written. *)
Definition write_fails_world : World :=
  {| w_json := Ok (python_body "print(1)"); w_tmpdir := "/tmp";
     w_mkdtemp := Ok "Ab12Cd";
     w_writeFile := Throw (Error "ENOSPC: no space left on device, write");
     w_spawn := Ok (silent_exit 100 0); w_rm := Ok tt |}.

(** A program that ends itself with status 137, at once and silently. *)
Definition exit_137_world : World :=
  world_of (python_body "import sys; sys.exit(137)") (silent_exit 40 137).

(** A program that loops for ever without printing. *)
Definition silent_loop_world : World :=
  world_of (python_body "while True: pass")
           {| stdout_data := []; stderr_data := []; fate := NeverEnds |}.

(** A program that prints once and then loops for ever. *)
Definition noisy_loop_world : World :=
  world_of (python_body "print(1, end='', flush=True) or [0 for _ in iter(int, 1)]")
           {| stdout_data := ["1"]; stderr_data := []; fate := NeverEnds |}.

(** A program that prints 300001 characters and exits. *)
Definition flood_world : World :=
  world_of (python_body "print('x' * 300001, end='')")
           {| stdout_data := [Js.repeat "x" 300001]; stderr_data := [];
              fate := ExitsAt 150 0 |}.

(** A body with none of the fields, and bodies with an unknown language. *)
Definition empty_body_world : World :=
  world_of {| language := None; code := None; stdin := None |} (silent_exit 0 0).

Definition ruby_world : World :=
  world_of {| language := Some "ruby"; code := Some "puts 1"; stdin := None |}
           (silent_exit 0 0).

Definition ruby_no_code_world : World :=
  world_of {| language := Some "ruby"; code := None; stdin := None |}
           (silent_exit 0 0).

(** A recognized language with the [code] field missing. *)
Definition no_code_world : World :=
  world_of {| language := Some "java"; code := None; stdin := None |}
           (silent_exit 0 0).

(** Python sources of a given length. *)
Definition sized_world (n : Z) : World :=
  world_of (python_body (Js.repeat "#" n)) (silent_exit 60 0).

(** * The rest of the runner, its callers, and the chat route *)

(** ** Text *)

Module Text.

(** The line feed and the double quote. *)
Definition LF : string := String (Ascii.ascii_of_nat 10) "".
Definition DQ : string := String (Ascii.ascii_of_nat 34) "".

(** An integer inside a template literal: its decimal digits, with a
    leading minus sign when negative. *)
Definition number (n : Z) : string := NilZero.string_of_int (Z.to_int n).

(** Whether the character [c] occurs in [s]. *)
Fixpoint has_char (c : Ascii.ascii) (s : string) : bool :=
  match s with
  | EmptyString => false
  | String x rest => Ascii.eqb x c || has_char c rest
  end.

End Text.

Import Text.

(** ** More vocabulary for the runner *)

(** The step of the handler at which a call is issued. *)
Definition phase (e : Event) : nat :=
  match e with
  | EMkdtemp _ => 0
  | EWriteFile _ _ => 1
  | ESpawn _ _ => 2
  | EStdinWrite _ => 3
  | EStdinEnd => 4
  | ESetTimeout _ => 5
  | EKill _ => 6
  | EClearTimeout => 7
  | ERm _ => 8
  end%nat.

(** The same world with another outcome for [fs.rm]. *)
Definition with_rm (r : Result unit) (w : World) : World :=
  {| w_json := w_json w; w_tmpdir := w_tmpdir w; w_mkdtemp := w_mkdtemp w;
     w_writeFile := w_writeFile w; w_spawn := w_spawn w; w_rm := r |}.

(** The [docker] client is ended by a signal that the handler did not
    send (the kernel reclaiming memory, say) before it printed anything. *)
Definition signalled_world : World :=
  world_of (python_body "print(sum(range(10 ** 9)))")
           {| stdout_data := []; stderr_data := []; fate := SignalledAt 900 |}.

(** The text of the error answered when [e] is caught. *)
Definition caught_text (e : Thrown) : string :=
  if truthy (message e) then message e else "runner error".

(** ** The sandbox pane: [runCode] in [interview/page.tsx] *)

Module Page.

(** [Lang], and the string each member stands for. *)
Inductive Lang := python | node | c | cpp | java.

Definition lang_id (l : Lang) : string :=
  match l with
  | python => "python"
  | node => "node"
  | c => "c"
  | cpp => "cpp"
  | java => "java"
  end.

(** [STARTER], the program shown when a language is selected. *)
Definition STARTER (l : Lang) : string :=
  match l with
  | python => "print(" +:+ DQ +:+ "hello from python" +:+ DQ +:+ ")" +:+ LF
  | node => "console.log(" +:+ DQ +:+ "hello from node" +:+ DQ +:+ ");" +:+ LF
  | c => "#include <stdio.h>" +:+ LF +:+ "int main(){ printf(" +:+ DQ
           +:+ "hello from C\n" +:+ DQ +:+ "); return 0; }" +:+ LF
  | cpp => "#include <bits/stdc++.h>" +:+ LF
             +:+ "using namespace std; int main(){ cout<<" +:+ DQ
             +:+ "hello from C++\n" +:+ DQ +:+ "; }" +:+ LF
  | java => "public class Main { public static void main(String[] args){ System.out.println("
              +:+ DQ +:+ "hello from Java" +:+ DQ +:+ "); } }" +:+ LF
  end.

(** The body of the request: [JSON.stringify({ language, code, stdin })].
    All three fields are present; [stdin] may be empty. *)
Definition request_body (l : Lang) (source input : string) : RunBody :=
  {| language := Some (lang_id l); code := Some source; stdin := Some input |}.

(** [res.ok]: the status is in the range 200-299. *)
Definition ok (res : Response) : bool :=
  (200 <=? status res) && (status res <=? 299).

(** [block(label, v)]. *)
Definition block (label v : string) : string :=
  if truthy v then LF +:+ "--- " +:+ label +:+ " ---" +:+ LF +:+ v else "".

(** The text left in [out] by [runCode], given the outcome of the [fetch]
    and of [res.json()]: the parsed object has the fields of the payload,
    and any other field read from it is [undefined]. *)
Definition runCode (fetched : Result Response) : string :=
  match fetched with
  | Throw e =>
      "Error: " +:+ (if truthy (message e) then message e else "Error")
  | Ok res =>
      if negb (ok res) then
        match payload res with
        | ErrorPayload error =>
            "Error: " +:+ (if truthy error then error else number (status res))
        | ResultPayload _ _ _ _ =>
            "Error: " +:+ number (status res)
        end
      else
        match payload res with
        | ResultPayload exitCode stdout stderr timedOut =>
            "exit: " +:+ number exitCode
              +:+ block "stdout" stdout
              +:+ block "stderr" stderr
              +:+ (if timedOut then LF +:+ "(timed out)" else "")
        | ErrorPayload _ => "exit: undefined"
        end
  end.

End Page.

(** ** The chat route: [POST] in [src/app/api/chat/route.ts] *)

Module ChatRoute.

Record ChatMessage := {
  role : string;
  content : string;
}.

(** A chunk of the completion stream, as far as the route looks into it:
    [chunk.choices?.[0]?.delta?.content].  [None] stands for a value that
    is [null] or [undefined]. *)
Record Delta := { delta_content : option string }.
Record Choice := { delta : option Delta }.
Record Chunk := { choices : option (list Choice) }.

(** The stream returned by the API: the chunks it yields, and the error it
    throws after them, if any. *)
Record Upstream := {
  chunks : list Chunk;
  failure : option Thrown;
}.

(** The argument of [openai.chat.completions.create]. *)
Record Completion := {
  model : string;
  stream : bool;
  temperature : Q;
  messages : list ChatMessage;
}.

Record World := {
  w_json : Result (option (list ChatMessage));  (* await req.json(), its [messages] *)
  w_MODEL_ID : option string;                   (* process.env.MODEL_ID *)
  w_create : Result Upstream;                   (* await openai...create(...) *)
}.

(** The body of a response: a text, or a stream with the chunks enqueued
    on its controller and whether the controller was closed. *)
Inductive Body :=
| Text (text : string)
| Streamed (enqueued : list string) (closed : bool).

Record Response := {
  status : Z;
  headers : list (string * string);
  body : Body;
}.

Definition sys : ChatMessage :=
  {| role := "system";
     content := "You are a concise coding assistant for interview practice. Prefer brief, correct answers. When writing code, include minimal context and comments." |}.

(** [chunk.choices?.[0]?.delta?.content ?? ""]. *)
Definition delta_of (chunk : Chunk) : string :=
  match choices chunk with
  | Some (first :: _) =>
      match delta first with
      | Some d => nullish (delta_content d) ""
      | None => ""
      end
  | Some [] => ""
  | None => ""
  end.

(** The [for await] loop: every chunk with a non-empty delta is enqueued. *)
Fixpoint drain (chunks : list Chunk) (enqueued : list string) : list string :=
  match chunks with
  | [] => enqueued
  | chunk :: rest =>
      let delta := delta_of chunk in
      drain rest (if truthy delta then enqueued ++ [delta] else enqueued)
  end.

(** The text enqueued by the [catch] of the loop. *)
Definition error_chunk (err : Thrown) : string :=
  LF +:+ LF +:+ "[error] " +:+ message err.

(** [start(controller)]: drain the stream, report its error if it throws,
    and close the controller in any case. *)
Definition start (up : Upstream) : Body :=
  let enqueued := drain (chunks up) [] in
  match failure up with
  | None => Streamed enqueued true
  | Some err => Streamed (enqueued ++ [error_chunk err]) true
  end.

(** The outer [catch]. *)
Definition POST_catch (e : Thrown) : Response :=
  {| status := 400; headers := []; body := Text ("[error] " +:+ message e) |}.

(** [POST]: the request made to the API, if any, and the response. *)
Definition POST (w : World) : option Completion * Response :=
  match w_json w with
  | Throw e => (None, POST_catch e)
  | Ok msgs =>
      let request :=
        {| model := match w_MODEL_ID w with
                    | Some id => if truthy id then id else "gpt-4o-mini"
                    | None => "gpt-4o-mini"
                    end;
           stream := true;
           temperature := 0.2%Q;
           messages := sys :: nullish msgs [] |} in
      match w_create w with
      | Throw e => (Some request, POST_catch e)
      | Ok up =>
          (Some request,
           {| status := 200;
              headers := [("Content-Type", "text/plain; charset=utf-8");
                          ("Cache-Control", "no-cache, no-transform")];
              body := start up |})
      end
  end.

(** The deltas of a stream, empty ones included. *)
Definition deltas (up : Upstream) : list string := map delta_of (chunks up).

(** The text a reader of the body ends up with. *)
Definition body_text (b : Body) : string :=
  match b with
  | Text text => text
  | Streamed enqueued _ => concatenation enqueued
  end.

(** A chunk that carries the text [s], and one that carries nothing. *)
Definition text_chunk (s : string) : Chunk :=
  {| choices := Some [ {| delta := Some {| delta_content := Some s |} |} ] |}.

Definition bare_chunk : Chunk := {| choices := Some [] |}.

End ChatRoute.

(** A conversation whose completion stream breaks after two deltas. *)
Definition chat_broken_world : ChatRoute.World :=
  {| ChatRoute.w_json :=
       Ok (Some [ {| ChatRoute.role := "user"; ChatRoute.content := "say hello" |} ]);
     ChatRoute.w_MODEL_ID := None;
     ChatRoute.w_create :=
       Ok {| ChatRoute.chunks :=
               [ChatRoute.text_chunk "Hel"; ChatRoute.bare_chunk;
                ChatRoute.text_chunk ""; ChatRoute.text_chunk "lo"];
             ChatRoute.failure := Some (Error "socket hang up") |} |}.

(** A request without [messages] that the API refuses. *)
Definition chat_refused_world : ChatRoute.World :=
  {| ChatRoute.w_json := Ok None;
     ChatRoute.w_MODEL_ID := Some "";
     ChatRoute.w_create := Throw (Error "401 Incorrect API key provided") |}.

(** ** The chat page: [stripHtml] and the message shown on failure *)

Module ChatPage.

(** [[a-z]] under the [i] flag. *)
Definition is_letter (x : Ascii.ascii) : bool :=
  let n := Ascii.N_of_ascii x in
  ((65 <=? n) && (n <=? 90) || (97 <=? n) && (n <=? 122))%N.

(** Whether [<\/?[a-z][\s\S]*>] matches at the start of [s]. *)
Definition tag_at (s : string) : bool :=
  match s with
  | String x (String y rest) =>
      Ascii.eqb x "<"%char &&
      (if is_letter y then has_char ">"%char rest
       else if Ascii.eqb y "/"%char then
         match rest with
         | String z rest' => is_letter z && has_char ">"%char rest'
         | EmptyString => false
         end
       else false)
  | _ => false
  end.

(** [/<\/?[a-z][\s\S]*>/i.test(s)]: the pattern matches somewhere. *)
Fixpoint looks_like_html (s : string) : bool :=
  tag_at s ||
  match s with
  | String _ rest => looks_like_html rest
  | EmptyString => false
  end.

Definition stripHtml (s : string) : string :=
  if looks_like_html s
  then "An error occurred (HTML response). Check server logs."
  else s.

(** The message shown when the response is not ok:
    [status === 429 ? "..." : stripHtml(txt) || `HTTP ${status}`]. *)
Definition failure_message (status : Z) (txt : string) : string :=
  if status =? 429
  then "Rate limit / quota exceeded. Add billing or enable mock mode."
  else if truthy (stripHtml txt) then stripHtml txt
       else "HTTP " +:+ number status.

End ChatPage.

(** * Properties *)

(** ** JavaScript helpers *)

Lemma truthy_false (s : string) : truthy s = false <-> s = "".
Proof.
  unfold truthy. rewrite negb_false_iff. apply String.eqb_eq.
Qed.

Lemma truthy_true (s : string) : truthy s = true <-> s <> "".
Proof.
  unfold truthy. rewrite negb_true_iff. apply String.eqb_neq.
Qed.

Lemma includes_elem_of (xs : list string) (x : string) :
  includes xs x = true <-> x ∈ xs.
Proof.
  induction xs as [|y ys IH]; simpl.
  - split; [discriminate | intros H; inversion H].
  - rewrite orb_true_iff, IH, elem_of_cons, String.eqb_eq.
    split; intros [H|H]; auto.
Qed.

Lemma length_nonneg (s : string) : 0 <= Js.length s.
Proof. unfold Js.length. lia. Qed.

Lemma length_empty_iff (s : string) : Js.length s = 0 <-> s = "".
Proof.
  unfold Js.length. destruct s; simpl; split; intros H;
    try reflexivity; try discriminate; lia.
Qed.

Lemma empty_not_recognized : "" ∉ LANGUAGES.
Proof. unfold LANGUAGES. rewrite !elem_of_cons, elem_of_nil. intuition discriminate. Qed.

Lemma check_language_Some (language : option string) (l : string) :
  check_language language = Some l <-> language = Some l /\ l ∈ LANGUAGES.
Proof.
  unfold check_language. destruct language as [l'|].
  - destruct (truthy l') eqn:Ht; destruct (includes LANGUAGES l') eqn:Hi; simpl.
    + apply includes_elem_of in Hi. split.
      * intros [= <-]. auto.
      * intros [[= <-] _]. reflexivity.
    + split; [discriminate|]. intros [[= <-] Hin].
      apply includes_elem_of in Hin. congruence.
    + apply truthy_false in Ht. subst l'. discriminate Hi.
    + split; [discriminate|]. intros [[= <-] Hin].
      apply includes_elem_of in Hin. congruence.
  - split; [discriminate | intros [? _]; discriminate].
Qed.

Lemma check_language_None (language : option string) :
  check_language language = None <-> ~ recognized language.
Proof.
  split.
  - intros Hn (l & Hl & Hin).
    assert (check_language language = Some l) as Hs
      by (apply check_language_Some; auto).
    congruence.
  - intros Hnot. destruct (check_language language) as [l|] eqn:E; [|reflexivity].
    exfalso. apply Hnot. exists l. apply check_language_Some. exact E.
Qed.

Lemma check_code_Some (code : option string) (c : string) :
  check_code code = Some c <->
  code = Some c /\ c <> "" /\ Js.length c <= CODE_LIMIT.
Proof.
  unfold check_code. destruct code as [c'|].
  - destruct (truthy c') eqn:Ht; simpl.
    + apply truthy_true in Ht.
      destruct (Js.length c' >? CODE_LIMIT) eqn:Hl.
      * apply Z.gtb_lt in Hl. split; [discriminate|].
        intros ([= <-] & _ & Hle). lia.
      * assert (Js.length c' <= CODE_LIMIT) as Hle.
        { rewrite Z.gtb_ltb in Hl. apply Z.ltb_ge in Hl. exact Hl. }
        split.
        -- intros [= <-]. auto.
        -- intros ([= <-] & _). reflexivity.
    + apply truthy_false in Ht. split; [discriminate|].
      intros ([= <-] & Hne & _). contradiction.
  - split; [discriminate | intros [? _]; discriminate].
Qed.

Lemma check_code_None (code : option string) :
  check_code code = None <-> unacceptable_code code.
Proof.
  split.
  - intros Hn. destruct code as [c|]; [|left; reflexivity].
    right. exists c. split; [reflexivity|].
    destruct (String.eqb_spec c "") as [->|Hne]; [left; reflexivity|].
    right. destruct (Z_lt_le_dec CODE_LIMIT (Js.length c)) as [Hlt|Hle]; [exact Hlt|].
    assert (check_code (Some c) = Some c) as Hs
      by (apply check_code_Some; auto).
    congruence.
  - intros Hbad. destruct (check_code code) as [c|] eqn:E; [|reflexivity].
    apply check_code_Some in E. destruct E as (-> & Hne & Hle).
    destruct Hbad as [Hbad | (c' & [= <-] & [Hbad|Hbad])];
      [discriminate | contradiction | lia].
Qed.

(** ** The exits of [POST] taken before anything is allocated *)

Lemma POST_parse_error w h e :
  w_json w = Throw e -> POST w h = (h, POST_catch e).
Proof.
  intros Hj. unfold POST, try_catch, POST_try, bind. rewrite Hj. reflexivity.
Qed.

Lemma POST_language_rejected w h body :
  w_json w = Ok body ->
  check_language (language body) = None ->
  POST w h = (h, json (ErrorPayload "Unsupported or missing language") 400).
Proof.
  intros Hj Hl. unfold POST, try_catch, POST_try, bind. rewrite Hj. simpl.
  rewrite Hl. reflexivity.
Qed.

Lemma POST_code_rejected w h body l :
  w_json w = Ok body ->
  check_language (language body) = Some l ->
  check_code (code body) = None ->
  POST w h = (h, json (ErrorPayload "Missing code or too large") 413).
Proof.
  intros Hj Hl Hc. unfold POST, try_catch, POST_try, bind. rewrite Hj. simpl.
  rewrite Hl, Hc. reflexivity.
Qed.

Ltac run_monad :=
  unfold POST, try_catch, POST_try, fs_mkdtemp, fs_writeFile, spawn,
    fs_rm_detached, bind, call, create_dir, remove_dir, lift, ret, throw;
  simpl.

Lemma await_close_run (proc : Child) (h : Host) :
  await_close proc h =
  ({| dirs := dirs h; trace := trace h ++ kill_calls proc |}, Ok (close_code proc)).
Proof.
  unfold await_close, kill_calls, close_code.
  destruct (deadline_first (fate proc)).
  - reflexivity.
  - rewrite app_nil_r. destruct h, (fate proc); reflexivity.
Qed.

Lemma source_file_recognized (l : string) :
  l ∈ LANGUAGES ->
  exists filename fileBase,
    source_file l = (filename, fileBase) /\ filename <> "".
Proof.
  unfold LANGUAGES. rewrite !elem_of_cons, elem_of_nil.
  intros [->|[->|[->|[->|[->|[]]]]]]; eexists _, _; split;
    try reflexivity; discriminate.
Qed.

Lemma dockerArgs_recognized (l dir fileBase : string) :
  l ∈ LANGUAGES -> exists args, dockerArgs l dir fileBase = Ok args.
Proof.
  unfold LANGUAGES. rewrite !elem_of_cons, elem_of_nil.
  intros [->|[->|[->|[->|[->|[]]]]]]; eexists; reflexivity.
Qed.

Section AcceptedRequest.

Variables (w : World) (h : Host) (body : RunBody) (l c : string).
Hypothesis Hjson : w_json w = Ok body.
Hypothesis Hlanguage : check_language (language body) = Some l.
Hypothesis Hcode : check_code (code body) = Some c.

Lemma POST_mkdtemp_fails e :
  w_mkdtemp w = Throw e ->
  POST w h =
  ({| dirs := dirs h; trace := trace h ++ [EMkdtemp (run_prefix w)] |}, POST_catch e).
Proof.
  intros Hm. run_monad. rewrite Hjson. simpl. rewrite Hlanguage, Hcode.
  simpl. rewrite Hm. reflexivity.
Qed.

Lemma POST_writeFile_fails suffix e :
  w_mkdtemp w = Ok suffix ->
  w_writeFile w = Throw e ->
  POST w h =
  ({| dirs := {[workspace w suffix]} ∪ dirs h;
      trace := trace h ++
               [EMkdtemp (run_prefix w);
                EWriteFile (path_join (workspace w suffix) (fst (source_file l))) c] |},
   POST_catch e).
Proof.
  intros Hm Hw. run_monad. rewrite Hjson. simpl. rewrite Hlanguage, Hcode.
  simpl. rewrite Hm. simpl. unfold workspace, run_prefix in *.
  destruct (source_file l) as [filename fileBase].
  simpl. rewrite Hw. simpl. rewrite <- app_assoc. reflexivity.
Qed.

Lemma POST_spawn_fails suffix args e :
  w_mkdtemp w = Ok suffix ->
  w_writeFile w = Ok tt ->
  dockerArgs l (workspace w suffix) (snd (source_file l)) = Ok args ->
  w_spawn w = Throw e ->
  POST w h =
  ({| dirs := {[workspace w suffix]} ∪ dirs h;
      trace := trace h ++
               [EMkdtemp (run_prefix w);
                EWriteFile (path_join (workspace w suffix) (fst (source_file l))) c;
                ESpawn "docker" args] |},
   POST_catch e).
Proof.
  intros Hm Hw Ha Hs. run_monad. rewrite Hjson. simpl. rewrite Hlanguage, Hcode.
  simpl. rewrite Hm. simpl. unfold workspace, run_prefix in *.
  destruct (source_file l) as [filename fileBase]. simpl in *.
  rewrite Hw. simpl. rewrite Ha. simpl. rewrite Hs. simpl.
  rewrite <- !app_assoc. reflexivity.
Qed.

Lemma POST_completed suffix args proc :
  w_mkdtemp w = Ok suffix ->
  w_writeFile w = Ok tt ->
  dockerArgs l (workspace w suffix) (snd (source_file l)) = Ok args ->
  w_spawn w = Ok proc ->
  POST w h =
  ({| dirs := match w_rm w with
              | Ok _ => ({[workspace w suffix]} ∪ dirs h) ∖ {[workspace w suffix]}
              | Throw _ => {[workspace w suffix]} ∪ dirs h
              end;
      trace := trace h ++
               [EMkdtemp (run_prefix w);
                EWriteFile (path_join (workspace w suffix) (fst (source_file l))) c;
                ESpawn "docker" args]
               ++ stdin_calls (stdin body)
               ++ [ESetTimeout (LIMIT_SECONDS * 1000)]
               ++ kill_calls proc
               ++ [EClearTimeout; ERm (workspace w suffix)] |},
   json (result_of proc) 200).
Proof.
  intros Hm Hw Ha Hs. run_monad. rewrite Hjson. simpl. rewrite Hlanguage, Hcode.
  simpl. rewrite Hm. simpl. unfold workspace, run_prefix in *.
  destruct (source_file l) as [filename fileBase]. simpl in *.
  rewrite Hw. simpl. rewrite Ha. simpl. rewrite Hs. simpl.
  unfold stdin_calls.
  destruct (stdin body) as [s|]; [destruct (truthy s)|]; simpl;
    rewrite await_close_run; simpl;
    destruct (w_rm w); simpl; rewrite <- ?app_assoc; simpl;
    rewrite <- ?app_assoc; reflexivity.
Qed.

End AcceptedRequest.

Lemma status_catch e : status (POST_catch e) = 500.
Proof. reflexivity. Qed.

Lemma POST_exits (w : World) : Exit w.
Proof.
  destruct (w_json w) as [body|e] eqn:Hj; [|eapply ExitParseError; eauto].
  destruct (check_language (language body)) as [l|] eqn:Hl;
    [|eapply ExitLanguage; eauto].
  destruct (check_code (code body)) as [c|] eqn:Hc;
    [|eapply ExitCode; eauto].
  destruct (w_mkdtemp w) as [suffix|e] eqn:Hm;
    [|eapply ExitMkdtemp; eauto].
  destruct (w_writeFile w) as [[]|e] eqn:Hw;
    [|eapply ExitWriteFile; eauto].
  assert (l ∈ LANGUAGES) as Hin by (apply check_language_Some in Hl; tauto).
  destruct (dockerArgs_recognized l (workspace w suffix) (snd (source_file l)) Hin)
    as [args Ha].
  destruct (w_spawn w) as [proc|e] eqn:Hs.
  - eapply ExitCompleted; eauto.
  - eapply ExitSpawn; eauto.
Qed.

(** The handler only appends to the trace, and neither the calls nor the
    response depend on the host it starts from. *)
Lemma POST_frame (w : World) (h : Host) :
  trace (fst (POST w h)) = trace h ++ calls w /\ snd (POST w h) = response w.
Proof.
  unfold calls, response.
  destruct (POST_exits w) as [e Hj|body Hj Hl|body l Hj Hl Hc|body l c e Hj Hl Hc Hm
    |body l c suffix e Hj Hl Hc Hm Hw|body l c suffix args e Hj Hl Hc Hm Hw Ha Hs
    |body l c suffix args proc Hj Hl Hc Hm Hw Ha Hs].
  - rewrite !(POST_parse_error w _ e Hj). simpl. rewrite app_nil_r. auto.
  - rewrite !(POST_language_rejected w _ body Hj Hl). simpl.
    rewrite app_nil_r. auto.
  - rewrite !(POST_code_rejected w _ body l Hj Hl Hc). simpl.
    rewrite app_nil_r. auto.
  - rewrite !(POST_mkdtemp_fails w _ body l c Hj Hl Hc e Hm). simpl. auto.
  - rewrite !(POST_writeFile_fails w _ body l c Hj Hl Hc suffix e Hm Hw).
    simpl. auto.
  - rewrite !(POST_spawn_fails w _ body l c Hj Hl Hc suffix args e Hm Hw Ha Hs).
    simpl. auto.
  - rewrite !(POST_completed w _ body l c Hj Hl Hc suffix args proc Hm Hw Ha Hs).
    simpl. auto.
Qed.

(** A response with status 200 comes from a completed run only. *)
Lemma response_200_inv (w : World) :
  status (response w) = 200 ->
  exists body l c suffix args proc,
    w_json w = Ok body /\ check_language (language body) = Some l /\
    check_code (code body) = Some c /\ w_mkdtemp w = Ok suffix /\
    w_writeFile w = Ok tt /\
    dockerArgs l (workspace w suffix) (snd (source_file l)) = Ok args /\
    w_spawn w = Ok proc.
Proof.
  unfold response.
  destruct (POST_exits w) as [e Hj|body Hj Hl|body l Hj Hl Hc|body l c e Hj Hl Hc Hm
    |body l c suffix e Hj Hl Hc Hm Hw|body l c suffix args e Hj Hl Hc Hm Hw Ha Hs
    |body l c suffix args proc Hj Hl Hc Hm Hw Ha Hs].
  - rewrite (POST_parse_error w _ e Hj). discriminate.
  - rewrite (POST_language_rejected w _ body Hj Hl). discriminate.
  - rewrite (POST_code_rejected w _ body l Hj Hl Hc). discriminate.
  - rewrite (POST_mkdtemp_fails w _ body l c Hj Hl Hc e Hm). discriminate.
  - rewrite (POST_writeFile_fails w _ body l c Hj Hl Hc suffix e Hm Hw).
    discriminate.
  - rewrite (POST_spawn_fails w _ body l c Hj Hl Hc suffix args e Hm Hw Ha Hs).
    discriminate.
  - intros _. exists body, l, c, suffix, args, proc. auto 10.
Qed.

(** The calls and the response of a completed run. *)
Lemma completed_run w body l c suffix args proc :
  w_json w = Ok body -> check_language (language body) = Some l ->
  check_code (code body) = Some c -> w_mkdtemp w = Ok suffix ->
  w_writeFile w = Ok tt ->
  dockerArgs l (workspace w suffix) (snd (source_file l)) = Ok args ->
  w_spawn w = Ok proc ->
  calls w =
    [EMkdtemp (run_prefix w);
     EWriteFile (path_join (workspace w suffix) (fst (source_file l))) c;
     ESpawn "docker" args]
    ++ stdin_calls (stdin body)
    ++ [ESetTimeout (LIMIT_SECONDS * 1000)]
    ++ kill_calls proc
    ++ [EClearTimeout; ERm (workspace w suffix)]
  /\ response w = json (result_of proc) 200.
Proof.
  intros Hj Hl Hc Hm Hw Ha Hs. unfold calls, response.
  rewrite (POST_completed w _ body l c Hj Hl Hc suffix args proc Hm Hw Ha Hs).
  simpl. auto.
Qed.

(** ** Validation *)

Lemma absent_or_oversized_unacceptable (code : option string) :
  absent_or_oversized code -> unacceptable_code code.
Proof.
  intros [H | (c & H & Hlen)]; [left; exact H|].
  right. exists c. auto.
Qed.

(** A rejected request leaves the host as it was and issues no call. *)
Lemma rejected_untouched (w : World) (h : Host) (r : Response) :
  (forall h0, POST w h0 = (h0, r)) ->
  response w = r /\ calls w = [] /\ dirs_after w h = dirs h.
Proof.
  intros H. unfold response, calls, dirs_after. rewrite !H. auto.
Qed.

(** An accepted request starts by asking for its workspace, and answers
    with 200 or 500. *)
Lemma accepted_allocates (w : World) (body : RunBody) (l c : string) :
  w_json w = Ok body ->
  check_language (language body) = Some l ->
  check_code (code body) = Some c ->
  head (calls w) = Some (EMkdtemp (run_prefix w)) /\
  (status (response w) = 200 \/ status (response w) = 500).
Proof.
  intros Hj Hl Hc. unfold calls, response.
  destruct (w_mkdtemp w) as [suffix|e] eqn:Hm.
  2: { rewrite (POST_mkdtemp_fails w _ body l c Hj Hl Hc e Hm). simpl. auto. }
  destruct (w_writeFile w) as [[]|e] eqn:Hw.
  2: { rewrite (POST_writeFile_fails w _ body l c Hj Hl Hc suffix e Hm Hw).
       simpl. auto. }
  assert (l ∈ LANGUAGES) as Hin by (apply check_language_Some in Hl; tauto).
  destruct (dockerArgs_recognized l (workspace w suffix) (snd (source_file l)) Hin)
    as [args Ha].
  destruct (w_spawn w) as [proc|e] eqn:Hs.
  - rewrite (POST_completed w _ body l c Hj Hl Hc suffix args proc Hm Hw Ha Hs).
    simpl. auto.
  - rewrite (POST_spawn_fails w _ body l c Hj Hl Hc suffix args e Hm Hw Ha Hs).
    simpl. auto.
Qed.

(** Claim C4, as amended.  A request whose [language] is absent or is not
    one of the five identifiers is answered with 400; a request whose
    language is recognized and whose [code] is absent or longer than the
    ceiling is answered with 413.  In both cases the handler issues no call
    at all (so no workspace is asked for and no process is spawned) and the
    directories of the host are unchanged. *)
Theorem rejected_before_allocation (w : World) (h : Host) (body : RunBody) :
  w_json w = Ok body ->
  (~ recognized (language body) ->
     status (response w) = 400 /\ calls w = [] /\ dirs_after w h = dirs h) /\
  (recognized (language body) -> absent_or_oversized (code body) ->
     status (response w) = 413 /\ calls w = [] /\ dirs_after w h = dirs h).
Proof.
  intros Hj. split.
  - intros Hl. apply check_language_None in Hl.
    destruct (rejected_untouched w h
                (json (ErrorPayload "Unsupported or missing language") 400))
      as (-> & Hcalls & Hdirs); auto.
    intros h0. apply (POST_language_rejected w h0 body Hj Hl).
  - intros (l & Hl & Hin) Hc.
    assert (check_language (language body) = Some l) as Hl'
      by (apply check_language_Some; auto).
    apply absent_or_oversized_unacceptable, check_code_None in Hc.
    destruct (rejected_untouched w h
                (json (ErrorPayload "Missing code or too large") 413))
      as (-> & Hcalls & Hdirs); auto.
    intros h0. apply (POST_code_rejected w h0 body l Hj Hl' Hc).
Qed.

Lemma ruby_not_recognized : ~ recognized (Some "ruby").
Proof. apply check_language_None. reflexivity. Qed.

Lemma java_recognized : recognized (Some "java").
Proof. exists "java". split; [reflexivity|]. apply includes_elem_of. reflexivity. Qed.

Lemma python_recognized : recognized (Some "python").
Proof. exists "python". split; [reflexivity|]. apply includes_elem_of. reflexivity. Qed.

Lemma rejected_before_allocation_witness :
  (status (response ruby_world) = 400 /\ calls ruby_world = []
   /\ dirs_after ruby_world host0 = dirs host0) /\
  (status (response no_code_world) = 413 /\ calls no_code_world = []
   /\ dirs_after no_code_world host0 = dirs host0).
Proof.
  split.
  - apply (proj1 (rejected_before_allocation ruby_world host0
                    {| language := Some "ruby"; code := Some "puts 1"; stdin := None |}
                    eq_refl)).
    exact ruby_not_recognized.
  - apply (proj2 (rejected_before_allocation no_code_world host0
                    {| language := Some "java"; code := None; stdin := None |}
                    eq_refl)).
    + exact java_recognized.
    + left. reflexivity.
Defined.

(** Claim C4 as it is stated fails on a body that has neither field: the
    [code] field is absent, and the answer is 400, not 413. *)
Lemma rejections_by_field_fails : ~ rejections_by_field empty_body_world host0.
Proof.
  intros H.
  destruct (H {| language := None; code := None; stdin := None |} eq_refl)
    as [_ Hcode].
  destruct Hcode as [Hstatus _]; [left; reflexivity|].
  vm_compute in Hstatus. discriminate Hstatus.
Qed.

(** Claim C9.  The language is checked first: a request that has no
    recognized language and whose code is missing, empty or too long is
    answered with 400, not with 413. *)
Theorem language_checked_first (w : World) (body : RunBody) :
  w_json w = Ok body ->
  ~ recognized (language body) ->
  unacceptable_code (code body) ->
  status (response w) = 400 /\ status (response w) <> 413.
Proof.
  intros Hj Hl _. apply check_language_None in Hl.
  unfold response. rewrite (POST_language_rejected w host0 body Hj Hl).
  simpl. split; [reflexivity | discriminate].
Qed.

Lemma language_checked_first_witness :
  status (response ruby_no_code_world) = 400 /\
  status (response ruby_no_code_world) <> 413.
Proof.
  apply (language_checked_first ruby_no_code_world
           {| language := Some "ruby"; code := None; stdin := None |} eq_refl).
  - exact ruby_not_recognized.
  - left. reflexivity.
Defined.

(** Claim C10.  The ceiling on [code] is 300000 characters, inclusive.  At
    the size check (reached by the requests whose language was recognized):
    a source of exactly 300000 characters passes, and the handler goes on
    to ask for a workspace; a source of 300001 characters is answered with
    413; so is a [code] field that is present but empty. *)
Theorem size_bound_inclusive (w : World) (body : RunBody) (c : string) :
  w_json w = Ok body ->
  recognized (language body) ->
  code body = Some c ->
  (Js.length c = 300000 ->
     check_code (code body) = Some c /\
     head (calls w) = Some (EMkdtemp (run_prefix w)) /\
     status (response w) <> 413) /\
  (Js.length c = 300001 -> status (response w) = 413) /\
  (c = "" -> status (response w) = 413).
Proof.
  intros Hj (l & Hl & Hin) Hcode.
  assert (check_language (language body) = Some l) as Hl'
    by (apply check_language_Some; auto).
  assert (check_code (code body) = None -> status (response w) = 413) as Hreject.
  { intros Hc. unfold response.
    rewrite (POST_code_rejected w host0 body l Hj Hl' Hc). reflexivity. }
  split; [|split].
  - intros Hlen.
    assert (check_code (code body) = Some c) as Hc.
    { apply check_code_Some. split; [exact Hcode|]. split.
      - intros ->. discriminate Hlen.
      - unfold CODE_LIMIT. lia. }
    split; [exact Hc|].
    destruct (accepted_allocates w body l c Hj Hl' Hc) as [Hhead Hstatus].
    split; [exact Hhead|]. destruct Hstatus as [-> | ->]; discriminate.
  - intros Hlen. apply Hreject, check_code_None. right. exists c.
    split; [exact Hcode|]. right. unfold CODE_LIMIT. lia.
  - intros ->. apply Hreject, check_code_None. right. exists "". auto.
Qed.

Lemma size_bound_inclusive_witness :
  (check_code (Some (Js.repeat "#" 300000)) = Some (Js.repeat "#" 300000) /\
   head (calls (sized_world 300000)) = Some (EMkdtemp "/tmp/run-") /\
   status (response (sized_world 300000)) <> 413) /\
  status (response (sized_world 300001)) = 413 /\
  status (response (sized_world 0)) = 413.
Proof.
  split; [|split].
  - apply (proj1 (size_bound_inclusive (sized_world 300000)
                    (python_body (Js.repeat "#" 300000)) (Js.repeat "#" 300000)
                    eq_refl python_recognized eq_refl)).
    vm_compute. reflexivity.
  - apply (proj1 (proj2 (size_bound_inclusive (sized_world 300001)
                    (python_body (Js.repeat "#" 300001)) (Js.repeat "#" 300001)
                    eq_refl python_recognized eq_refl))).
    vm_compute. reflexivity.
  - apply (proj2 (proj2 (size_bound_inclusive (sized_world 0)
                    (python_body (Js.repeat "#" 0)) ""
                    eq_refl python_recognized eq_refl))).
    reflexivity.
Defined.

(** ** The command line of the isolated process *)

Lemma has_option_here (k v : string) (post : list string) :
  has_option k v (k :: v :: post).
Proof. exists [], post. reflexivity. Qed.

Lemma has_option_later (k v a : string) (args : list string) :
  has_option k v args -> has_option k v (a :: args).
Proof. intros (pre & post & ->). exists (a :: pre), post. reflexivity. Qed.

Ltac find_option :=
  repeat first [ apply has_option_here | apply has_option_later ].

Ltac find_elem :=
  repeat first [ apply list_elem_of_here | apply list_elem_of_further ].

(** The same past the segments appended in front. *)
Ltac find_elem_app :=
  repeat first [ apply list_elem_of_here | apply list_elem_of_further
               | (apply elem_of_app; right) ].

(** Replace the calls of a concrete world by their value. *)
Ltac eval_calls_in H :=
  match type of H with
  | context [calls ?w] =>
      let l := eval vm_compute in (calls w) in
      change (calls w) with l in H
  end.

(** Case analysis on a membership [H : x ∈ a :: l ++ ...]; the cases that
    equate different calls are closed. *)
Ltac cases_elem H :=
  repeat first [ rewrite elem_of_cons in H | rewrite elem_of_app in H
               | rewrite elem_of_nil in H ];
  repeat match type of H with
         | _ \/ _ => destruct H as [H|H]
         end;
  try discriminate H; try contradiction.

Lemma common_isolated (dir : string) (rest : list string) :
  isolated dir (common dir ++ rest).
Proof.
  unfold common, mountSpec. simpl.
  constructor; first [ solve [find_option] | solve [find_elem] ].
Qed.

(** Whatever [dockerArgs] returns is isolated: every returning branch
    starts from the common options. *)
Lemma dockerArgs_Ok_isolated (l dir fileBase : string) (args : list string) :
  dockerArgs l dir fileBase = Ok args -> isolated dir args.
Proof.
  unfold dockerArgs.
  repeat match goal with
         | |- context [String.eqb l ?x] => destruct (String.eqb l x)
         end;
    intros [= <-] || discriminate; apply common_isolated.
Qed.

(** Claim C6.  For each of the five languages [dockerArgs] returns an
    argument list, and that list carries every isolation constraint:
    no network, the fixed CPU and memory limits, the limit on processes, a
    read-only root with a [/tmp] scratch area mounted nosuid, nodev and
    noexec, all capabilities dropped and no new privileges, the user
    1000:1000, and the workspace mounted read-only. *)
Theorem dockerArgs_isolated (l dir fileBase : string) :
  l ∈ LANGUAGES ->
  exists args, dockerArgs l dir fileBase = Ok args /\ isolated dir args.
Proof.
  intros Hin.
  destruct (dockerArgs_recognized l dir fileBase Hin) as [args Ha].
  exists args. split; [exact Ha|].
  apply (dockerArgs_Ok_isolated l dir fileBase args Ha).
Qed.

Lemma dockerArgs_isolated_witness :
  exists args,
    dockerArgs "cpp" "/tmp/run-Ab12Cd" "main" = Ok args /\
    isolated "/tmp/run-Ab12Cd" args.
Proof.
  apply (dockerArgs_isolated "cpp" "/tmp/run-Ab12Cd" "main").
  apply includes_elem_of. reflexivity.
Defined.

(** ** What reaches the command line *)

Lemma not_spawn_in_stdin_calls cmd args stdin : ESpawn cmd args ∉ stdin_calls stdin.
Proof.
  unfold stdin_calls. intros H.
  destruct stdin as [s|]; [destruct (truthy s)|]; cases_elem H.
Qed.

Lemma not_spawn_in_kill_calls cmd args proc : ESpawn cmd args ∉ kill_calls proc.
Proof.
  unfold kill_calls. destruct (deadline_first (fate proc));
    rewrite ?elem_of_cons, elem_of_nil; intuition discriminate.
Qed.

(** A [spawn] call is only issued for an accepted request whose source file
    was written, and its arguments are those of [dockerArgs] for the
    language and the workspace. *)
Lemma spawn_call_inv (w : World) (cmd : string) (args : list string) :
  ESpawn cmd args ∈ calls w ->
  exists body l c suffix,
    w_json w = Ok body /\ check_language (language body) = Some l /\
    check_code (code body) = Some c /\ w_mkdtemp w = Ok suffix /\
    w_writeFile w = Ok tt /\
    cmd = "docker" /\
    dockerArgs l (workspace w suffix) (snd (source_file l)) = Ok args /\
    EWriteFile (path_join (workspace w suffix) (fst (source_file l))) c ∈ calls w.
Proof.
  unfold calls.
  destruct (POST_exits w) as [e Hj|body Hj Hl|body l Hj Hl Hc|body l c e Hj Hl Hc Hm
    |body l c suffix e Hj Hl Hc Hm Hw|body l c suffix args' e Hj Hl Hc Hm Hw Ha Hs
    |body l c suffix args' proc Hj Hl Hc Hm Hw Ha Hs].
  - rewrite (POST_parse_error w _ e Hj). simpl. intros H. inversion H.
  - rewrite (POST_language_rejected w _ body Hj Hl). simpl. intros H. inversion H.
  - rewrite (POST_code_rejected w _ body l Hj Hl Hc). simpl. intros H. inversion H.
  - rewrite (POST_mkdtemp_fails w _ body l c Hj Hl Hc e Hm). simpl.
    intros H. cases_elem H.
  - rewrite (POST_writeFile_fails w _ body l c Hj Hl Hc suffix e Hm Hw). simpl.
    intros H. cases_elem H.
  - rewrite (POST_spawn_fails w _ body l c Hj Hl Hc suffix args' e Hm Hw Ha Hs).
    simpl. intros H. cases_elem H. injection H as -> ->.
    exists body, l, c, suffix. repeat split; auto. find_elem.
  - rewrite (POST_completed w _ body l c Hj Hl Hc suffix args' proc Hm Hw Ha Hs).
    simpl. intros H. cases_elem H.
    + injection H as -> ->.
      exists body, l, c, suffix. repeat split; auto. find_elem.
    + exfalso. exact (not_spawn_in_stdin_calls _ _ _ H).
    + exfalso. exact (not_spawn_in_kill_calls _ _ _ H).
Qed.

(** Every process the handler spawns is isolated, with its own workspace
    as the read-only mount. *)
Lemma spawn_is_isolated (w : World) (cmd : string) (args : list string) :
  ESpawn cmd args ∈ calls w ->
  exists suffix, w_mkdtemp w = Ok suffix /\ isolated (workspace w suffix) args.
Proof.
  intros H. apply spawn_call_inv in H.
  destruct H as (body & l & c & suffix & _ & _ & _ & Hm & _ & _ & Ha & _).
  exists suffix. split; [exact Hm|].
  apply (dockerArgs_Ok_isolated _ _ _ _ Ha).
Qed.

(** Claim C7.  The command line never carries the submitted source or
    input: two requests with the same language and the same workspace path
    are launched with the same command and the same argument list, whatever
    their [code] and [stdin] are; and the source of a launched request
    went into a file of its workspace. *)
Theorem spawn_args_ignore_code_and_stdin
    (w1 w2 : World) (b1 b2 : RunBody) (s1 s2 : string)
    (cmd1 cmd2 : string) (args1 args2 : list string) :
  w_json w1 = Ok b1 -> w_json w2 = Ok b2 ->
  language b1 = language b2 ->
  w_mkdtemp w1 = Ok s1 -> w_mkdtemp w2 = Ok s2 ->
  workspace w1 s1 = workspace w2 s2 ->
  ESpawn cmd1 args1 ∈ calls w1 ->
  ESpawn cmd2 args2 ∈ calls w2 ->
  cmd1 = cmd2 /\ args1 = args2 /\
  exists c1 filename,
    code b1 = Some c1 /\
    EWriteFile (path_join (workspace w1 s1) filename) c1 ∈ calls w1.
Proof.
  intros Hj1 Hj2 Hlang Hm1 Hm2 Hws H1 H2.
  apply spawn_call_inv in H1, H2.
  destruct H1 as (b1' & l1 & c1 & s1' & Hj1' & Hl1 & Hc1 & Hm1' & _ & -> & Ha1 & Hf1).
  destruct H2 as (b2' & l2 & c2 & s2' & Hj2' & Hl2 & Hc2 & Hm2' & _ & -> & Ha2 & _).
  assert (b1' = b1) as -> by congruence.
  assert (b2' = b2) as -> by congruence.
  assert (s1' = s1) as -> by congruence.
  assert (s2' = s2) as -> by congruence.
  assert (l1 = l2) as -> by congruence.
  rewrite Hws in Ha1. split; [reflexivity|]. split; [congruence|].
  apply check_code_Some in Hc1. destruct Hc1 as (Hc1 & _).
  exists c1, (fst (source_file l2)). split; [exact Hc1 | exact Hf1].
Qed.

Lemma spawn_args_ignore_code_and_stdin_witness :
  exists args1 args2,
    ESpawn "docker" args1 ∈ calls echo_world /\
    ESpawn "docker" args2 ∈ calls other_python_world /\
    code (python_body "print(input(), end='')") <> Some "import os" /\
    args1 = args2.
Proof.
  pose (args := common "/tmp/run-Ab12Cd" ++ ["python:3.11-alpine"; "python"; "main.py"]).
  assert (ESpawn "docker" args ∈ calls echo_world) as H1
    by (vm_compute; find_elem).
  assert (ESpawn "docker" args ∈ calls other_python_world) as H2
    by (vm_compute; find_elem).
  exists args, args. split; [exact H1|]. split; [exact H2|].
  split; [discriminate|].
  apply (proj1 (proj2 (spawn_args_ignore_code_and_stdin
           echo_world other_python_world
           {| language := Some "python"; code := Some "print(input(), end='')";
              stdin := Some "hello" |}
           {| language := Some "python"; code := Some "import os";
              stdin := Some "x" |}
           "Ab12Cd" "Ab12Cd" "docker" "docker" args args
           eq_refl eq_refl eq_refl eq_refl eq_refl eq_refl H1 H2))).
Defined.

(** ** The input stream *)

Lemma stdin_stream_stdin_calls (stdin : option string) (rest : list Event) :
  stdin_stream (stdin_calls stdin ++ rest) "" = Some (default "" stdin).
Proof.
  unfold stdin_calls. destruct stdin as [s|]; simpl; [|reflexivity].
  destruct (truthy s) eqn:Ht; simpl; [reflexivity|].
  apply truthy_false in Ht. subst s. reflexivity.
Qed.

(** Claim C8.  Once the process is spawned, its input stream receives the
    [stdin] text, if there is any, and is then ended: a non-empty [stdin]
    is written right after the spawn and the stream is ended right after the
    write; with [stdin] absent or empty the stream is ended right after the
    spawn.  Either way the child reads exactly the [stdin] text (nothing when
    absent) followed by end-of-input. *)
Theorem stdin_written_then_ended
    (w : World) (body : RunBody) (proc : Child) (cmd : string) (args : list string) :
  w_json w = Ok body ->
  w_spawn w = Ok proc ->
  ESpawn cmd args ∈ calls w ->
  stdin_stream (calls w) "" = Some (default "" (stdin body)) /\
  (forall s, stdin body = Some s -> s <> "" ->
     exists pre post,
       calls w = pre ++ ESpawn cmd args :: EStdinWrite s :: EStdinEnd :: post) /\
  (stdin body = None \/ stdin body = Some "" ->
     exists pre post, calls w = pre ++ ESpawn cmd args :: EStdinEnd :: post).
Proof.
  intros Hj Hs Hin.
  apply spawn_call_inv in Hin.
  destruct Hin as (body' & l & c & suffix & Hj' & Hl & Hc & Hm & Hw & -> & Ha & _).
  assert (body' = body) as -> by congruence.
  destruct (completed_run w body l c suffix args proc Hj Hl Hc Hm Hw Ha Hs)
    as [Hcalls _].
  rewrite Hcalls. split; [|split].
  - simpl. apply stdin_stream_stdin_calls.
  - intros s Hstdin Hne. eexists [_; _], _. simpl. do 3 f_equal.
    unfold stdin_calls. rewrite Hstdin.
    apply truthy_true in Hne. rewrite Hne. reflexivity.
  - intros Hstdin. eexists [_; _], _. simpl. do 3 f_equal.
    unfold stdin_calls. destruct Hstdin as [-> | ->]; simpl; reflexivity.
Qed.

Lemma stdin_written_then_ended_witness :
  stdin_stream (calls echo_world) "" = Some "hello" /\
  stdin_stream (calls echo_world_no_stdin) "" = Some "".
Proof.
  pose (args := common "/tmp/run-Ab12Cd" ++ ["python:3.11-alpine"; "python"; "main.py"]).
  assert (ESpawn "docker" args ∈ calls echo_world) as H1
    by (vm_compute; find_elem).
  assert (ESpawn "docker" args ∈ calls echo_world_no_stdin) as H2
    by (vm_compute; find_elem).
  split.
  - exact (proj1 (stdin_written_then_ended echo_world
             {| language := Some "python"; code := Some "print(input(), end='')";
                stdin := Some "hello" |}
             {| stdout_data := ["hello"]; stderr_data := []; fate := ExitsAt 120 0 |}
             "docker" args eq_refl eq_refl H1)).
  - exact (proj1 (stdin_written_then_ended echo_world_no_stdin
             (python_body "print(input(), end='')")
             {| stdout_data := []; stderr_data := ["EOFError: EOF when reading a line"]; fate := ExitsAt 110 1 |}
             "docker" args eq_refl eq_refl H2)).
Defined.

(** ** The result of a completed run *)

Lemma not_kill_in_stdin_calls stdin : EKill "SIGKILL" ∉ stdin_calls stdin.
Proof.
  unfold stdin_calls. intros H.
  destruct stdin as [s|]; [destruct (truthy s)|]; cases_elem H.
Qed.

Lemma kill_calls_deadline (proc : Child) :
  EKill "SIGKILL" ∈ kill_calls proc <-> deadline_first (fate proc) = true.
Proof.
  unfold kill_calls. destruct (deadline_first (fate proc)).
  - split; [reflexivity | intros _; find_elem].
  - split; [intros H; inversion H | discriminate].
Qed.

Lemma close_code_deadline (proc : Child) :
  deadline_first (fate proc) = true -> close_code proc = None.
Proof. unfold close_code. intros ->. reflexivity. Qed.

Lemma close_code_exit (proc : Child) (ms c : Z) :
  fate proc = ExitsAt ms c -> ms < LIMIT_SECONDS * 1000 ->
  deadline_first (fate proc) = false /\ close_code proc = Some c.
Proof.
  intros Hf Hms. unfold close_code. rewrite Hf. simpl.
  assert ((LIMIT_SECONDS * 1000 <=? ms) = false) as -> by (apply Z.leb_gt; exact Hms).
  auto.
Qed.

(** A 200 response is the result of the spawned process, and the timer
    callback ran exactly when the deadline came first. *)
Lemma result_inv (w : World) (ec : Z) (out err : string) (t : bool) :
  response w = json (ResultPayload ec out err t) 200 ->
  exists proc,
    w_spawn w = Ok proc /\
    ec = nullish (close_code proc) 137 /\
    out = accumulate (stdout_data proc) /\
    err = accumulate (stderr_data proc) /\
    t = ((ec =? 137) && negb (truthy out) && negb (truthy err))%bool /\
    (killed_by_deadline w <-> deadline_first (fate proc) = true).
Proof.
  intros Hr.
  assert (status (response w) = 200) as H200 by (rewrite Hr; reflexivity).
  destruct (response_200_inv w H200)
    as (body & l & c & suffix & args & proc & Hj & Hl & Hc & Hm & Hw & Ha & Hs).
  destruct (completed_run w body l c suffix args proc Hj Hl Hc Hm Hw Ha Hs)
    as [Hcalls Hresp].
  rewrite Hresp in Hr. unfold result_of, json in Hr.
  injection Hr as <- <- <- <-.
  exists proc. repeat split; auto.
  - unfold killed_by_deadline. rewrite Hcalls. intros H. cases_elem H.
    + exfalso. exact (not_kill_in_stdin_calls _ H).
    + apply kill_calls_deadline. exact H.
  - intros Hd. apply kill_calls_deadline in Hd.
    unfold killed_by_deadline. rewrite Hcalls.
    rewrite !elem_of_app. right. right. right. left. exact Hd.
Qed.

Lemma timedOut_flag (ec : Z) (out err : string) :
  ((ec =? 137) && negb (truthy out) && negb (truthy err))%bool = true <->
  ec = 137 /\ out = "" /\ err = "".
Proof.
  rewrite !andb_true_iff, Z.eqb_eq, !negb_true_iff, !truthy_false. tauto.
Qed.

(** Claim C2, as amended.  In a 200 result [timedOut] is true exactly when
    the reported [exitCode] is 137 and both captured streams are empty.  A
    run killed by the deadline timer reports 137, so for it [timedOut] is
    true exactly when both streams are empty (with output on either stream
    it is false).  A run that the timer did not kill has [timedOut] false
    whenever its exit code is not 137. *)
Theorem timedOut_rule (w : World) (ec : Z) (out err : string) (t : bool) :
  response w = json (ResultPayload ec out err t) 200 ->
  (t = true <-> ec = 137 /\ out = "" /\ err = "") /\
  (killed_by_deadline w ->
     ec = 137 /\ (t = true <-> out = "" /\ err = "")) /\
  (~ killed_by_deadline w -> ec <> 137 -> t = false).
Proof.
  intros Hr.
  destruct (result_inv w ec out err t Hr)
    as (proc & Hs & Hec & Hout & Herr & Ht & Hkill).
  assert (t = true <-> ec = 137 /\ out = "" /\ err = "") as Hrule
    by (rewrite Ht; apply timedOut_flag).
  split; [exact Hrule|]. split.
  - intros Hk. apply Hkill, close_code_deadline in Hk.
    assert (ec = 137) as Hec' by (rewrite Hec, Hk; reflexivity).
    split; [exact Hec'|]. rewrite Hrule. tauto.
  - intros _ Hne. destruct t; [|reflexivity].
    exfalso. apply Hne. apply Hrule. reflexivity.
Qed.

Lemma timedOut_rule_witness :
  (true = true <-> 137 = 137 /\ "" = "" /\ "" = "") /\
  (false = true <-> 137 = 137 /\ "1" = "" /\ "" = "").
Proof.
  split.
  - exact (proj1 (timedOut_rule silent_loop_world 137 "" "" true eq_refl)).
  - exact (proj1 (timedOut_rule noisy_loop_world 137 "1" "" false eq_refl)).
Defined.

(** Claim C2 as it is stated fails on a program that ends itself with
    status 137 without printing: [timedOut] is true although the timer never
    ran. *)
Lemma timedOut_iff_deadline_kill_fails : ~ timedOut_iff_deadline_kill exit_137_world.
Proof.
  intros H. destruct (H 137 "" "" true eq_refl) as [H1 _].
  destruct (H1 eq_refl) as [Hk _].
  unfold killed_by_deadline in Hk. eval_calls_in Hk. cases_elem Hk.
Qed.

(** Claim C3, as amended.  When the deadline comes before the end of the
    process, the handler sends [SIGKILL] and the reported [exitCode] is 137.
    A process that exits on its own before the deadline is not killed and
    its own exit code is reported (137 when that is its exit code). *)
Theorem deadline_kill_reports_137
    (w : World) (proc : Child) (ec : Z) (out err : string) (t : bool) :
  w_spawn w = Ok proc ->
  response w = json (ResultPayload ec out err t) 200 ->
  (deadline_first (fate proc) = true -> killed_by_deadline w /\ ec = 137) /\
  (forall ms c, fate proc = ExitsAt ms c -> ms < LIMIT_SECONDS * 1000 ->
     ~ killed_by_deadline w /\ ec = c).
Proof.
  intros Hs Hr.
  destruct (result_inv w ec out err t Hr)
    as (proc' & Hs' & Hec & _ & _ & _ & Hkill).
  assert (proc' = proc) as -> by congruence.
  split.
  - intros Hd. split; [apply Hkill; exact Hd|].
    rewrite Hec, (close_code_deadline proc Hd). reflexivity.
  - intros ms c Hf Hms.
    destruct (close_code_exit proc ms c Hf Hms) as [Hd Hc]. split.
    + rewrite Hkill, Hd. discriminate.
    + rewrite Hec, Hc. reflexivity.
Qed.

Lemma deadline_kill_reports_137_witness :
  (killed_by_deadline silent_loop_world /\ 137 = 137) /\
  (~ killed_by_deadline echo_world /\ 0 = 0).
Proof.
  split.
  - apply (proj1 (deadline_kill_reports_137 silent_loop_world
             {| stdout_data := []; stderr_data := []; fate := NeverEnds |}
             137 "" "" true eq_refl eq_refl)).
    reflexivity.
  - apply (proj2 (deadline_kill_reports_137 echo_world
             {| stdout_data := ["hello"]; stderr_data := []; fate := ExitsAt 120 0 |}
             0 "hello" "" false eq_refl eq_refl) 120 0 eq_refl).
    reflexivity.
Defined.

(** Claim C3 as it is stated fails on the same program: it exits on its
    own, well before the deadline, and the reported [exitCode] is 137. *)
Lemma sentinel_tells_timeout_fails : ~ sentinel_tells_timeout exit_137_world.
Proof.
  intros H.
  destruct (H (silent_exit 40 137) 137 "" "" true eq_refl eq_refl) as [_ H2].
  apply (H2 40 137 eq_refl); reflexivity.
Qed.

(** ** Captured output *)

Lemma append_cons (x : Ascii.ascii) (a b : string) :
  String x a +:+ b = String x (a +:+ b).
Proof. reflexivity. Qed.

Lemma append_assoc (a b c : string) : (a +:+ b) +:+ c = a +:+ (b +:+ c).
Proof.
  induction a as [|x a IH]; [reflexivity|].
  rewrite !append_cons, IH. reflexivity.
Qed.

Lemma append_empty_r (a : string) : a +:+ "" = a.
Proof.
  induction a as [|x a IH]; [reflexivity|].
  rewrite append_cons, IH. reflexivity.
Qed.

Lemma length_append (a b : string) : Js.length (a +:+ b) = Js.length a + Js.length b.
Proof.
  unfold Js.length. induction a as [|x a IH]; [reflexivity|].
  rewrite append_cons. simpl String.length. lia.
Qed.

Lemma fold_left_append (chunks : list string) (acc : string) :
  fold_left String.append chunks acc = acc +:+ concatenation chunks.
Proof.
  revert acc. induction chunks as [|d chunks IH]; intros acc; simpl.
  - symmetry. apply append_empty_r.
  - rewrite IH. apply append_assoc.
Qed.

Lemma accumulate_concatenation (chunks : list string) :
  accumulate chunks = concatenation chunks.
Proof. unfold accumulate. rewrite fold_left_append. reflexivity. Qed.

Lemma length_concatenation (chunks : list string) :
  Js.length (concatenation chunks) = total_length chunks.
Proof.
  induction chunks as [|d chunks IH]; simpl.
  - reflexivity.
  - rewrite length_append, IH. reflexivity.
Qed.

(** Claim C5, as amended.  The [stdout] of a result is every chunk received
    on the standard output of the process, in order of arrival, and its
    length is the sum of the lengths of the chunks; likewise for [stderr].
    Nothing is cut off. *)
Theorem output_is_every_chunk
    (w : World) (proc : Child) (ec : Z) (out err : string) (t : bool) :
  w_spawn w = Ok proc ->
  response w = json (ResultPayload ec out err t) 200 ->
  out = concatenation (stdout_data proc) /\
  err = concatenation (stderr_data proc) /\
  Js.length out = total_length (stdout_data proc) /\
  Js.length err = total_length (stderr_data proc).
Proof.
  intros Hs Hr.
  destruct (result_inv w ec out err t Hr)
    as (proc' & Hs' & _ & Hout & Herr & _ & _).
  assert (proc' = proc) as -> by congruence.
  rewrite accumulate_concatenation in Hout, Herr. subst out err.
  rewrite !length_concatenation. auto.
Qed.

Lemma output_is_every_chunk_witness :
  "hello" = concatenation ["hello"] /\
  "" = concatenation [] /\
  Js.length "hello" = total_length ["hello"] /\
  Js.length "" = total_length [].
Proof.
  exact (output_is_every_chunk echo_world
           {| stdout_data := ["hello"]; stderr_data := []; fate := ExitsAt 120 0 |}
           0 "hello" "" false eq_refl eq_refl).
Defined.

(** Claim C5 as it is stated fails on a program that prints 300001
    characters: all of them are in the [stdout] of the result. *)
Lemma output_within_ceiling_fails : ~ output_within_ceiling flood_world.
Proof.
  intros H.
  destruct (completed_run flood_world
              (python_body "print('x' * 300001, end='')") "python"
              "print('x' * 300001, end='')" "Ab12Cd" _ _
              eq_refl eq_refl eq_refl eq_refl eq_refl eq_refl eq_refl)
    as [_ Hr].
  unfold result_of in Hr.
  destruct (H _ _ _ _ Hr) as [Hout _].
  apply Hout. vm_compute. reflexivity.
Qed.

(** ** The workspace at the end of the request *)

(** A completed run whose [fs.rm] succeeds leaves no workspace behind. *)
Lemma workspace_removed_on_completion w h body l c suffix args proc :
  w_json w = Ok body -> check_language (language body) = Some l ->
  check_code (code body) = Some c -> w_mkdtemp w = Ok suffix ->
  w_writeFile w = Ok tt ->
  dockerArgs l (workspace w suffix) (snd (source_file l)) = Ok args ->
  w_spawn w = Ok proc -> w_rm w = Ok tt ->
  (workspace w suffix ∉ dirs_after w h) /\ (ERm (workspace w suffix) ∈ calls w).
Proof.
  intros Hj Hl Hc Hm Hw Ha Hs Hrm. unfold dirs_after, calls.
  rewrite !(POST_completed w _ body l c Hj Hl Hc suffix args proc Hm Hw Ha Hs).
  simpl. rewrite Hrm. split.
  - intros [_ Hn]%elem_of_difference. apply Hn, elem_of_singleton. reflexivity.
  - find_elem_app.
Qed.

(** When writing the source file fails, the handler answers 500, never
    calls [fs.rm], and the workspace stays on the host. *)
Lemma workspace_left_when_write_fails w h body l c suffix e :
  w_json w = Ok body -> check_language (language body) = Some l ->
  check_code (code body) = Some c -> w_mkdtemp w = Ok suffix ->
  w_writeFile w = Throw e ->
  status (response w) = 500 /\
  (workspace w suffix ∈ dirs_after w h) /\
  (forall path, ERm path ∉ calls w).
Proof.
  intros Hj Hl Hc Hm Hw. unfold response, dirs_after, calls.
  rewrite !(POST_writeFile_fails w _ body l c Hj Hl Hc suffix e Hm Hw). simpl.
  split; [reflexivity|]. split; [apply elem_of_union_l, elem_of_singleton; reflexivity|].
  intros path H. cases_elem H.
Qed.

(** The same when [spawn] throws. *)
Lemma workspace_left_when_spawn_fails w h body l c suffix e :
  w_json w = Ok body -> check_language (language body) = Some l ->
  check_code (code body) = Some c -> w_mkdtemp w = Ok suffix ->
  w_writeFile w = Ok tt -> w_spawn w = Throw e ->
  status (response w) = 500 /\
  (workspace w suffix ∈ dirs_after w h) /\
  (forall path, ERm path ∉ calls w).
Proof.
  intros Hj Hl Hc Hm Hw Hs. unfold response, dirs_after, calls.
  assert (l ∈ LANGUAGES) as Hin by (apply check_language_Some in Hl; tauto).
  destruct (dockerArgs_recognized l (workspace w suffix) (snd (source_file l)) Hin)
    as [args Ha].
  rewrite !(POST_spawn_fails w _ body l c Hj Hl Hc suffix args e Hm Hw Ha Hs).
  simpl. split; [reflexivity|].
  split; [apply elem_of_union_l, elem_of_singleton; reflexivity|].
  intros path H. cases_elem H.
Qed.

(** Claim C1, on a failing run.  The request is accepted and its workspace
    [/tmp/run-Ab12Cd] is created; writing the source file then fails.  The
    handler answers 500 without ever calling [fs.rm], and the workspace is
    still there once the response is produced. *)
Theorem write_failure_leaves_workspace :
  check_language (language (python_body "print(1)")) = Some "python" /\
  check_code (code (python_body "print(1)")) = Some "print(1)" /\
  calls write_fails_world =
    [EMkdtemp "/tmp/run-"; EWriteFile "/tmp/run-Ab12Cd/main.py" "print(1)"] /\
  response write_fails_world =
    json (ErrorPayload "ENOSPC: no space left on device, write") 500 /\
  ("/tmp/run-Ab12Cd" ∈ dirs_after write_fails_world host0).
Proof.
  split; [reflexivity|]. split; [reflexivity|].
  split; [reflexivity|]. split; [reflexivity|].
  apply (workspace_left_when_write_fails write_fails_world host0
           (python_body "print(1)") "python" "print(1)" "Ab12Cd"
           (Error "ENOSPC: no space left on device, write")); reflexivity.
Qed.

(** * Further properties of the runner *)

(** ** The shape of the responses *)

Lemma caught_text_nonempty (e : Thrown) : caught_text e <> "".
Proof.
  unfold caught_text. destruct (truthy (message e)) eqn:Ht.
  - apply truthy_true. exact Ht.
  - discriminate.
Qed.

Lemma POST_catch_caught (e : Thrown) :
  POST_catch e = json (ErrorPayload (caught_text e)) 500.
Proof. reflexivity. Qed.

(** The response of each exit. *)
Lemma response_cases (w : World) :
  (exists body, w_json w = Ok body /\ check_language (language body) = None /\
     response w = json (ErrorPayload "Unsupported or missing language") 400) \/
  (exists body l, w_json w = Ok body /\ check_language (language body) = Some l /\
     check_code (code body) = None /\
     response w = json (ErrorPayload "Missing code or too large") 413) \/
  (exists e, (w_json w = Throw e \/ w_mkdtemp w = Throw e \/
              w_writeFile w = Throw e \/ w_spawn w = Throw e) /\
     response w = json (ErrorPayload (caught_text e)) 500) \/
  (exists proc, w_spawn w = Ok proc /\ response w = json (result_of proc) 200).
Proof.
  unfold response.
  destruct (POST_exits w) as [e Hj|body Hj Hl|body l Hj Hl Hc|body l c e Hj Hl Hc Hm
    |body l c suffix e Hj Hl Hc Hm Hw|body l c suffix args e Hj Hl Hc Hm Hw Ha Hs
    |body l c suffix args proc Hj Hl Hc Hm Hw Ha Hs].
  - right. right. left. exists e. rewrite (POST_parse_error w _ e Hj). auto.
  - left. exists body. rewrite (POST_language_rejected w _ body Hj Hl). auto.
  - right. left. exists body, l.
    rewrite (POST_code_rejected w _ body l Hj Hl Hc). auto.
  - right. right. left. exists e.
    rewrite (POST_mkdtemp_fails w _ body l c Hj Hl Hc e Hm). auto.
  - right. right. left. exists e.
    rewrite (POST_writeFile_fails w _ body l c Hj Hl Hc suffix e Hm Hw). auto.
  - right. right. left. exists e.
    rewrite (POST_spawn_fails w _ body l c Hj Hl Hc suffix args e Hm Hw Ha Hs). auto 6.
  - right. right. right. exists proc.
    rewrite (POST_completed w _ body l c Hj Hl Hc suffix args proc Hm Hw Ha Hs). auto.
Qed.

(** X1.  Every response is JSON with one of four statuses.  A 200 carries
    a result object and nothing else does: the other statuses (400, 413,
    500) carry an error object whose text is not empty. *)
Theorem response_shape (w : World) :
  content_type (response w) = "application/json" /\
  ((status (response w) = 200 /\
    exists ec out err t, payload (response w) = ResultPayload ec out err t) \/
   ((status (response w) = 400 \/ status (response w) = 413 \/
     status (response w) = 500) /\
    exists e, payload (response w) = ErrorPayload e /\ e <> "")).
Proof.
  destruct (response_cases w)
    as [(body & _ & _ & ->)|[(body & l & _ & _ & _ & ->)
       |[(e & _ & ->)|(proc & _ & ->)]]]; simpl; (split; [reflexivity|]).
  - right. split; [auto|]. eexists. split; [reflexivity | discriminate].
  - right. split; [auto|]. eexists. split; [reflexivity | discriminate].
  - right. split; [auto|]. eexists. split; [reflexivity | apply caught_text_nonempty].
  - left. split; [reflexivity|]. unfold result_of. eauto.
Qed.

Lemma check_code_accepts (code : option string) :
  (exists c, check_code code = Some c) <-> ~ unacceptable_code code.
Proof.
  rewrite <- check_code_None. destruct (check_code code) as [c|].
  - split; [discriminate | eauto].
  - split; [intros [c H]; discriminate | intros H; contradiction H; reflexivity].
Qed.

Lemma check_language_accepts (language : option string) :
  (exists l, check_language language = Some l) <-> recognized language.
Proof.
  unfold recognized. split; intros [l H]; exists l; apply check_language_Some; exact H.
Qed.

(** X2.  The answer is 200 exactly when the request is valid (recognized
    language, acceptable code) and the four calls to the environment all
    succeed.  What the program then does (a non-zero exit, a crash, a
    timeout) never changes the status. *)
Theorem status_200_iff (w : World) :
  status (response w) = 200 <->
  (exists body, w_json w = Ok body /\ recognized (language body) /\
                ~ unacceptable_code (code body)) /\
  (exists suffix, w_mkdtemp w = Ok suffix) /\
  w_writeFile w = Ok tt /\
  (exists proc, w_spawn w = Ok proc).
Proof.
  split.
  - intros H. destruct (response_200_inv w H)
      as (body & l & c & suffix & args & proc & Hj & Hl & Hc & Hm & Hw & _ & Hs).
    split; [|eauto].
    exists body. split; [exact Hj|]. split.
    + apply check_language_accepts. eauto.
    + apply check_code_accepts. eauto.
  - intros ((body & Hj & Hl & Hc) & (suffix & Hm) & Hw & (proc & Hs)).
    apply check_language_accepts in Hl. destruct Hl as [l Hl].
    apply check_code_accepts in Hc. destruct Hc as [c Hc].
    assert (l ∈ LANGUAGES) as Hin by (apply check_language_Some in Hl; tauto).
    destruct (dockerArgs_recognized l (workspace w suffix) (snd (source_file l)) Hin)
      as [args Ha].
    destruct (completed_run w body l c suffix args proc Hj Hl Hc Hm Hw Ha Hs)
      as [_ ->].
    reflexivity.
Qed.

Lemma status_200_iff_witness : status (response exit_137_world) = 200.
Proof.
  apply (proj2 (status_200_iff exit_137_world)).
  split; [|split; [|split]].
  - exists (python_body "import sys; sys.exit(137)").
    split; [reflexivity|]. split; [exact python_recognized|].
    apply check_code_accepts. eexists. reflexivity.
  - exists "Ab12Cd". reflexivity.
  - reflexivity.
  - eexists. reflexivity.
Defined.

(** X3.  A 500 is always caused by a call that threw (parsing the body,
    [fs.mkdtemp], [fs.writeFile] or [spawn]), and its error text is the
    message of what was thrown, or ["runner error"] when that message is
    empty. *)
Theorem server_error_cause (w : World) :
  status (response w) = 500 ->
  exists e,
    (w_json w = Throw e \/ w_mkdtemp w = Throw e \/
     w_writeFile w = Throw e \/ w_spawn w = Throw e) /\
    payload (response w) =
      ErrorPayload (if truthy (message e) then message e else "runner error").
Proof.
  intros H.
  destruct (response_cases w)
    as [(body & _ & _ & Hr)|[(body & l & _ & _ & _ & Hr)
       |[(e & He & Hr)|(proc & _ & Hr)]]]; rewrite Hr in H; try discriminate H.
  exists e. split; [exact He|]. rewrite Hr. reflexivity.
Qed.

Lemma server_error_cause_witness :
  exists e,
    (w_json write_fails_world = Throw e \/ w_mkdtemp write_fails_world = Throw e \/
     w_writeFile write_fails_world = Throw e \/ w_spawn write_fails_world = Throw e) /\
    payload (response write_fails_world) =
      ErrorPayload (if truthy (message e) then message e else "runner error").
Proof.
  apply (server_error_cause write_fails_world). reflexivity.
Defined.

(** ** Calls and directories, exit by exit *)

Lemma run_cases (w : World) (h : Host) :
  (calls w = [] /\ dirs_after w h = dirs h /\ status (response w) <> 200) \/
  (exists e, w_mkdtemp w = Throw e /\
     calls w = [EMkdtemp (run_prefix w)] /\ dirs_after w h = dirs h /\
     status (response w) = 500) \/
  (exists suffix path data, w_mkdtemp w = Ok suffix /\
     (calls w = [EMkdtemp (run_prefix w); EWriteFile path data] \/
      exists args, calls w = [EMkdtemp (run_prefix w); EWriteFile path data;
                              ESpawn "docker" args]) /\
     dirs_after w h = {[workspace w suffix]} ∪ dirs h /\
     status (response w) = 500) \/
  (exists suffix path data args body proc,
     w_mkdtemp w = Ok suffix /\ w_json w = Ok body /\ w_spawn w = Ok proc /\
     calls w =
       [EMkdtemp (run_prefix w); EWriteFile path data; ESpawn "docker" args]
       ++ stdin_calls (stdin body)
       ++ [ESetTimeout (LIMIT_SECONDS * 1000)]
       ++ kill_calls proc
       ++ [EClearTimeout; ERm (workspace w suffix)] /\
     dirs_after w h =
       match w_rm w with
       | Ok _ => ({[workspace w suffix]} ∪ dirs h) ∖ {[workspace w suffix]}
       | Throw _ => {[workspace w suffix]} ∪ dirs h
       end /\
     status (response w) = 200).
Proof.
  unfold calls, response, dirs_after.
  destruct (POST_exits w) as [e Hj|body Hj Hl|body l Hj Hl Hc|body l c e Hj Hl Hc Hm
    |body l c suffix e Hj Hl Hc Hm Hw|body l c suffix args e Hj Hl Hc Hm Hw Ha Hs
    |body l c suffix args proc Hj Hl Hc Hm Hw Ha Hs].
  - left. rewrite !(POST_parse_error w _ e Hj). simpl.
    split; [reflexivity|]. split; [reflexivity | discriminate].
  - left. rewrite !(POST_language_rejected w _ body Hj Hl). simpl.
    split; [reflexivity|]. split; [reflexivity | discriminate].
  - left. rewrite !(POST_code_rejected w _ body l Hj Hl Hc). simpl.
    split; [reflexivity|]. split; [reflexivity | discriminate].
  - right. left. exists e.
    rewrite !(POST_mkdtemp_fails w _ body l c Hj Hl Hc e Hm). simpl. auto.
  - right. right. left. eexists suffix, _, _.
    rewrite !(POST_writeFile_fails w _ body l c Hj Hl Hc suffix e Hm Hw). simpl.
    split; [exact Hm|]. split; [left; reflexivity|]. auto.
  - right. right. left. eexists suffix, _, _.
    rewrite !(POST_spawn_fails w _ body l c Hj Hl Hc suffix args e Hm Hw Ha Hs).
    simpl. split; [exact Hm|]. split; [right; eexists; reflexivity|]. auto.
  - right. right. right. eexists suffix, _, _, args, body, proc.
    rewrite !(POST_completed w _ body l c Hj Hl Hc suffix args proc Hm Hw Ha Hs).
    simpl. auto 10.
Qed.

Lemma phases_stdin_calls (stdin : option string) :
  map phase (stdin_calls stdin) = [3; 4]%nat \/ map phase (stdin_calls stdin) = [4]%nat.
Proof.
  unfold stdin_calls. destruct stdin as [s|]; [destruct (truthy s)|]; simpl; auto.
Qed.

Lemma phases_kill_calls (proc : Child) :
  map phase (kill_calls proc) = [6]%nat \/ map phase (kill_calls proc) = [].
Proof. unfold kill_calls. destruct (deadline_first (fate proc)); simpl; auto. Qed.

Ltac sorted_phases :=
  repeat first [ apply SSorted_nil | apply SSorted_cons
               | apply List.Forall_nil | apply List.Forall_cons | lia ].

(** X4.  The handler issues its calls in one fixed order (mkdtemp,
    writeFile, spawn, stdin write, stdin end, setTimeout, kill,
    clearTimeout, rm) and each of them at most once: along the calls of a
    request the steps strictly increase. *)
Theorem calls_in_order (w : World) :
  StronglySorted lt (map phase (calls w)).
Proof.
  destruct (run_cases w host0)
    as [(-> & _)|[(e & _ & -> & _)|[(suffix & path & data & _ & Hc & _)
       |(suffix & path & data & args & body & proc & _ & _ & _ & -> & _)]]].
  - simpl. sorted_phases.
  - simpl. sorted_phases.
  - destruct Hc as [-> | (args & ->)]; simpl; sorted_phases.
  - rewrite !map_app. simpl.
    destruct (phases_stdin_calls (stdin body)) as [-> | ->];
      destruct (phases_kill_calls proc) as [-> | ->]; simpl; sorted_phases.
Qed.

(** X5.  The handler touches no directory but its own workspace: any
    other directory exists after the request exactly if it existed
    before. *)
Theorem other_directories_untouched (w : World) (h : Host) (d : string) :
  (forall suffix, w_mkdtemp w = Ok suffix -> d <> workspace w suffix) ->
  (d ∈ dirs_after w h <-> d ∈ dirs h).
Proof.
  intros Hd.
  destruct (run_cases w h)
    as [(_ & -> & _)|[(e & _ & _ & -> & _)|[(suffix & path & data & Hm & _ & -> & _)
       |(suffix & path & data & args & body & proc & Hm & _ & _ & _ & -> & _)]]];
    try tauto.
  - specialize (Hd suffix Hm). rewrite elem_of_union, elem_of_singleton. tauto.
  - specialize (Hd suffix Hm). destruct (w_rm w).
    + rewrite elem_of_difference, elem_of_union, elem_of_singleton. tauto.
    + rewrite elem_of_union, elem_of_singleton. tauto.
Qed.

Lemma other_directories_untouched_witness :
  "/tmp/run-Zz99Yy" ∈ dirs_after echo_world
                        {| dirs := {["/tmp/run-Zz99Yy"]}; trace := [] |}.
Proof.
  apply (proj2 (other_directories_untouched echo_world
                  {| dirs := {["/tmp/run-Zz99Yy"]}; trace := [] |}
                  "/tmp/run-Zz99Yy"
                  (fun suffix Hm => ltac:(injection Hm as <-; discriminate)))).
  simpl. apply elem_of_singleton. reflexivity.
Defined.



(** X7.  Whether [fs.rm] succeeds is invisible to the client: the response
    and the calls are the same whatever its outcome. *)
Theorem rm_outcome_is_invisible (r : Result unit) (w : World) :
  response (with_rm r w) = response w /\ calls (with_rm r w) = calls w.
Proof.
  unfold response, calls.
  destruct (POST_exits w) as [e Hj|body Hj Hl|body l Hj Hl Hc|body l c e Hj Hl Hc Hm
    |body l c suffix e Hj Hl Hc Hm Hw|body l c suffix args e Hj Hl Hc Hm Hw Ha Hs
    |body l c suffix args proc Hj Hl Hc Hm Hw Ha Hs].
  - rewrite (POST_parse_error w _ e Hj), (POST_parse_error (with_rm r w) _ e Hj).
    auto.
  - rewrite (POST_language_rejected w _ body Hj Hl),
      (POST_language_rejected (with_rm r w) _ body Hj Hl). auto.
  - rewrite (POST_code_rejected w _ body l Hj Hl Hc),
      (POST_code_rejected (with_rm r w) _ body l Hj Hl Hc). auto.
  - rewrite (POST_mkdtemp_fails w _ body l c Hj Hl Hc e Hm),
      (POST_mkdtemp_fails (with_rm r w) _ body l c Hj Hl Hc e Hm). auto.
  - rewrite (POST_writeFile_fails w _ body l c Hj Hl Hc suffix e Hm Hw),
      (POST_writeFile_fails (with_rm r w) _ body l c Hj Hl Hc suffix e Hm Hw).
    auto.
  - rewrite (POST_spawn_fails w _ body l c Hj Hl Hc suffix args e Hm Hw Ha Hs),
      (POST_spawn_fails (with_rm r w) _ body l c Hj Hl Hc suffix args e Hm Hw Ha Hs).
    auto.
  - rewrite (POST_completed w _ body l c Hj Hl Hc suffix args proc Hm Hw Ha Hs),
      (POST_completed (with_rm r w) _ body l c Hj Hl Hc suffix args proc Hm Hw Ha Hs).
    auto.
Qed.

(** ** [dockerArgs] and the source file *)

(** X8.  [dockerArgs] throws exactly for a language outside the five
    identifiers, and what it throws names that language. *)
Theorem dockerArgs_throws_iff (l dir fileBase : string) (e : Thrown) :
  dockerArgs l dir fileBase = Throw e <->
  (l ∉ LANGUAGES) /\ e = Error ("Unsupported language: " +:+ l).
Proof.
  unfold dockerArgs, LANGUAGES.
  repeat match goal with
         | |- context [String.eqb l ?x] =>
             destruct (String.eqb_spec l x) as [->|?]
         end;
    try (split; [discriminate | intros [Hn _]; exfalso; apply Hn; find_elem]).
  split.
  - intros [= <-]. split; [|reflexivity].
    rewrite !elem_of_cons, elem_of_nil. tauto.
  - intros [_ ->]. reflexivity.
Qed.

Lemma dockerArgs_throws_iff_witness :
  dockerArgs "ruby" "/tmp/run-Ab12Cd" "main" =
  Throw (Error "Unsupported language: ruby").
Proof.
  apply (proj2 (dockerArgs_throws_iff "ruby" "/tmp/run-Ab12Cd" "main"
                  (Error "Unsupported language: ruby"))).
  split; [|reflexivity].
  intros H. apply includes_elem_of in H. discriminate H.
Defined.

(** X9.  The file the handler writes is the file the container runs.  For
    each language, with the file name and base chosen by the handler, the
    arguments are the common options, an image and a command; the command
    is either an interpreter applied to that file name, or a shell script
    that starts by copying [/workspace/<that file name>] to [/tmp]. *)
Theorem written_file_is_run (l dir : string) :
  l ∈ LANGUAGES ->
  exists image cmd,
    dockerArgs l dir (snd (source_file l)) = Ok (common dir ++ image :: cmd) /\
    ((exists interpreter, cmd = [interpreter; fst (source_file l)]) \/
     (exists script,
        cmd = ["/bin/sh"; "-lc"; script] /\
        String.prefix ("cp /workspace/" +:+ fst (source_file l) +:+ " /tmp && ")
                      script = true)).
Proof.
  unfold LANGUAGES. rewrite !elem_of_cons, elem_of_nil.
  intros [->|[->|[->|[->|[->|[]]]]]]; eexists _, _; (split; [reflexivity|]).
  - left. eexists. reflexivity.
  - left. eexists. reflexivity.
  - right. eexists. split; reflexivity.
  - right. eexists. split; reflexivity.
  - right. eexists. split; reflexivity.
Qed.

Lemma written_file_is_run_witness :
  exists image cmd,
    dockerArgs "java" "/tmp/run-Ab12Cd" "Main" =
      Ok (common "/tmp/run-Ab12Cd" ++ image :: cmd) /\
    ((exists interpreter, cmd = [interpreter; "Main.java"]) \/
     (exists script,
        cmd = ["/bin/sh"; "-lc"; script] /\
        String.prefix "cp /workspace/Main.java /tmp && " script = true)).
Proof.
  apply (written_file_is_run "java" "/tmp/run-Ab12Cd").
  apply includes_elem_of. reflexivity.
Defined.

(** ** Signals and the timer *)

(** X10.  A process ended before the deadline by a signal that the
    handler did not send is reported with [exitCode] 137, although no kill
    was sent; its [timedOut] flag is then true exactly when it printed
    nothing. *)
Theorem signal_reports_137
    (w : World) (proc : Child) (ms : Z) (ec : Z) (out err : string) (t : bool) :
  w_spawn w = Ok proc ->
  fate proc = SignalledAt ms -> ms < LIMIT_SECONDS * 1000 ->
  response w = json (ResultPayload ec out err t) 200 ->
  ec = 137 /\ ~ killed_by_deadline w /\ (t = true <-> out = "" /\ err = "").
Proof.
  intros Hs Hf Hms Hr.
  destruct (result_inv w ec out err t Hr)
    as (proc' & Hs' & Hec & _ & _ & Ht & Hkill).
  assert (proc' = proc) as -> by congruence.
  assert (deadline_first (fate proc) = false) as Hd.
  { rewrite Hf. simpl. apply Z.leb_gt. exact Hms. }
  assert (ec = 137) as Hec'.
  { rewrite Hec. unfold close_code. rewrite Hd, Hf. reflexivity. }
  split; [exact Hec'|]. split.
  - rewrite Hkill, Hd. discriminate.
  - rewrite Ht, timedOut_flag. tauto.
Qed.

Lemma signal_reports_137_witness :
  137 = 137 /\ ~ killed_by_deadline signalled_world /\
  (true = true <-> "" = "" /\ "" = "").
Proof.
  apply (signal_reports_137 signalled_world
           {| stdout_data := []; stderr_data := []; fate := SignalledAt 900 |}
           900 137 "" "" true eq_refl eq_refl eq_refl eq_refl).
Defined.



(** * The sandbox pane on top of the runner *)

Lemma lang_id_recognized (l : Page.Lang) : recognized (Some (Page.lang_id l)).
Proof.
  exists (Page.lang_id l). split; [reflexivity|].
  apply includes_elem_of. destruct l; reflexivity.
Qed.

Lemma runCode_error_text (e : string) (st : Z) :
  e <> "" -> (st <? 200) || (299 <? st) = true ->
  Page.runCode (Ok (json (ErrorPayload e) st)) = "Error: " +:+ e.
Proof.
  intros He Hst. unfold Page.runCode, Page.ok. simpl.
  assert ((200 <=? st) && (st <=? 299) = false) as ->.
  { apply orb_true_iff in Hst. apply andb_false_iff.
    destruct Hst as [H|H]; [left | right]; lia. }
  simpl. apply truthy_true in He. rewrite He. reflexivity.
Qed.

(** X12.  Whenever the runner does not answer 200, the pane shows
    ["Error: "] followed by the runner's own error text; it never falls
    back to the bare status number, the text being never empty. *)
Theorem runCode_shows_runner_error (w : World) :
  status (response w) <> 200 ->
  exists e,
    payload (response w) = ErrorPayload e /\ e <> "" /\
    Page.runCode (Ok (response w)) = "Error: " +:+ e.
Proof.
  intros H.
  destruct (response_cases w)
    as [(body & _ & _ & Hr)|[(body & l & _ & _ & _ & Hr)
       |[(e & _ & Hr)|(proc & _ & Hr)]]]; rewrite Hr in *.
  - eexists. split; [reflexivity|]. split; [discriminate|].
    apply runCode_error_text; [discriminate | reflexivity].
  - eexists. split; [reflexivity|]. split; [discriminate|].
    apply runCode_error_text; [discriminate | reflexivity].
  - eexists. split; [reflexivity|]. split; [apply caught_text_nonempty|].
    apply runCode_error_text; [apply caught_text_nonempty | reflexivity].
  - contradiction H. reflexivity.
Qed.

Lemma runCode_shows_runner_error_witness :
  exists e,
    payload (response ruby_world) = ErrorPayload e /\ e <> "" /\
    Page.runCode (Ok (response ruby_world)) = "Error: " +:+ e.
Proof.
  apply (runCode_shows_runner_error ruby_world). discriminate.
Defined.

(** X13.  When the runner reports a timeout the pane shows exactly two
    lines, [exit: 137] and [(timed out)]: no output section can appear
    next to the timeout mark. *)
Theorem runCode_timed_out_text (w : World) (ec : Z) (out err : string) :
  response w = json (ResultPayload ec out err true) 200 ->
  Page.runCode (Ok (response w)) = "exit: 137" +:+ LF +:+ "(timed out)".
Proof.
  intros Hr.
  destruct (result_inv w ec out err true Hr) as (proc & _ & _ & _ & _ & Ht & _).
  symmetry in Ht. apply timedOut_flag in Ht. destruct Ht as (-> & -> & ->).
  rewrite Hr. reflexivity.
Qed.

Lemma runCode_timed_out_text_witness :
  Page.runCode (Ok (response silent_loop_world)) =
  "exit: 137" +:+ LF +:+ "(timed out)".
Proof.
  apply (runCode_timed_out_text silent_loop_world 137 "" ""). reflexivity.
Defined.

(** X14.  A request built by the pane always names a recognized language,
    so the runner never answers it with 400.  With an empty or oversized
    source the pane shows the runner's 413 text; with any other source the
    runner goes on to ask for a workspace. *)
Theorem pane_request_validation
    (w : World) (l : Page.Lang) (source input : string) :
  w_json w = Ok (Page.request_body l source input) ->
  status (response w) <> 400 /\
  (source = "" \/ CODE_LIMIT < Js.length source ->
     Page.runCode (Ok (response w)) = "Error: Missing code or too large") /\
  (source <> "" -> Js.length source <= CODE_LIMIT ->
     head (calls w) = Some (EMkdtemp (run_prefix w))).
Proof.
  intros Hj.
  destruct (lang_id_recognized l) as (l' & [= <-] & Hin).
  assert (check_language (language (Page.request_body l source input))
          = Some (Page.lang_id l)) as Hl
    by (apply check_language_Some; auto).
  assert (source <> "" -> Js.length source <= CODE_LIMIT ->
          head (calls w) = Some (EMkdtemp (run_prefix w)) /\
          (status (response w) = 200 \/ status (response w) = 500)) as Hacc.
  { intros Hne Hlen.
    apply (accepted_allocates w _ (Page.lang_id l) source Hj Hl).
    apply check_code_Some. auto. }
  assert (source = "" \/ CODE_LIMIT < Js.length source ->
          response w = json (ErrorPayload "Missing code or too large") 413) as Hrej.
  { intros Hbad. unfold response.
    apply (f_equal snd (POST_code_rejected w host0 _ (Page.lang_id l) Hj Hl
             (proj2 (check_code_None _)
                (or_intror (ex_intro _ source (conj eq_refl Hbad)))))). }
  split; [|split].
  - destruct (String.eqb_spec source "") as [->|Hne].
    + rewrite Hrej by auto. discriminate.
    + destruct (Z_lt_le_dec CODE_LIMIT (Js.length source)) as [Hlt|Hle].
      * rewrite Hrej by auto. discriminate.
      * destruct (Hacc Hne Hle) as [_ [-> | ->]]; discriminate.
  - intros Hbad. rewrite (Hrej Hbad). reflexivity.
  - intros Hne Hle. apply (Hacc Hne Hle).
Qed.

Lemma pane_request_validation_witness :
  status (response (world_of (Page.request_body Page.cpp "" "") (silent_exit 0 0)))
    <> 400 /\
  Page.runCode (Ok (response (world_of (Page.request_body Page.cpp "" "")
                                       (silent_exit 0 0))))
    = "Error: Missing code or too large".
Proof.
  pose proof (pane_request_validation
                (world_of (Page.request_body Page.cpp "" "") (silent_exit 0 0))
                Page.cpp "" "" eq_refl) as (H1 & H2 & _).
  split; [exact H1|]. apply H2. left. reflexivity.
Defined.

(** X15.  Running the starter program of a language as it stands is never
    rejected: whichever language is selected, the runner accepts the
    request and asks for a workspace. *)
Theorem starter_is_accepted (w : World) (l : Page.Lang) (input : string) :
  w_json w = Ok (Page.request_body l (Page.STARTER l) input) ->
  head (calls w) = Some (EMkdtemp (run_prefix w)) /\
  (status (response w) = 200 \/ status (response w) = 500).
Proof.
  intros Hj.
  destruct (lang_id_recognized l) as (l' & [= <-] & Hin).
  apply (accepted_allocates w _ (Page.lang_id l) (Page.STARTER l) Hj).
  - apply check_language_Some. auto.
  - destruct l; reflexivity.
Qed.

Lemma starter_is_accepted_witness :
  head (calls (world_of (Page.request_body Page.java (Page.STARTER Page.java) "")
                        (silent_exit 900 0)))
  = Some (EMkdtemp "/tmp/run-").
Proof.
  apply (starter_is_accepted
           (world_of (Page.request_body Page.java (Page.STARTER Page.java) "")
                     (silent_exit 900 0))
           Page.java "" eq_refl).
Defined.

(** * The chat route *)

Lemma drain_filter (chunks : list ChatRoute.Chunk) (enqueued : list string) :
  ChatRoute.drain chunks enqueued =
  enqueued ++ List.filter truthy (map ChatRoute.delta_of chunks).
Proof.
  revert enqueued. induction chunks as [|chunk rest IH]; intros enqueued; simpl.
  - rewrite app_nil_r. reflexivity.
  - rewrite IH. destruct (truthy (ChatRoute.delta_of chunk)).
    + rewrite <- app_assoc. reflexivity.
    + reflexivity.
Qed.

Lemma filter_truthy_nonempty (l : list string) :
  Forall (fun s => s <> "") (List.filter truthy l).
Proof.
  induction l as [|s l IH]; simpl; [constructor|].
  destruct (truthy s) eqn:Ht; [|exact IH].
  constructor; [apply truthy_true; exact Ht | exact IH].
Qed.

Lemma concatenation_app (a b : list string) :
  concatenation (a ++ b) = concatenation a +:+ concatenation b.
Proof.
  induction a as [|s a IH]; simpl; [reflexivity|].
  rewrite IH. symmetry. apply append_assoc.
Qed.

Lemma concatenation_filter (l : list string) :
  concatenation (List.filter truthy l) = concatenation l.
Proof.
  induction l as [|s l IH]; simpl; [reflexivity|].
  destruct (truthy s) eqn:Ht; simpl.
  - rewrite IH. reflexivity.
  - apply truthy_false in Ht. subst s. exact IH.
Qed.

Lemma error_chunk_nonempty (err : Thrown) : ChatRoute.error_chunk err <> "".
Proof. discriminate. Qed.

(** X16.  Once the completion stream is obtained the route answers 200,
    also when the stream fails half-way.  The chunks enqueued on the body
    are the non-empty deltas, in order, followed by one error chunk if the
    stream threw; no empty chunk is ever enqueued, and the body is closed
    in every case. *)
Theorem chat_stream_chunks
    (w : ChatRoute.World) (msgs : option (list ChatRoute.ChatMessage))
    (up : ChatRoute.Upstream) :
  ChatRoute.w_json w = Ok msgs ->
  ChatRoute.w_create w = Ok up ->
  ChatRoute.status (snd (ChatRoute.POST w)) = 200 /\
  exists enqueued,
    ChatRoute.body (snd (ChatRoute.POST w)) = ChatRoute.Streamed enqueued true /\
    enqueued =
      List.filter truthy (ChatRoute.deltas up)
      ++ match ChatRoute.failure up with
         | Some err => [ChatRoute.error_chunk err]
         | None => []
         end /\
    Forall (fun s => s <> "") enqueued.
Proof.
  intros Hj Hc. unfold ChatRoute.POST. rewrite Hj, Hc. simpl.
  split; [reflexivity|]. unfold ChatRoute.start, ChatRoute.deltas.
  rewrite drain_filter. simpl.
  destruct (ChatRoute.failure up) as [err|]; eexists; (split; [reflexivity|]).
  - split; [reflexivity|]. apply Forall_app. split.
    + apply filter_truthy_nonempty.
    + constructor; [apply error_chunk_nonempty | constructor].
  - rewrite app_nil_r. split; [reflexivity|]. apply filter_truthy_nonempty.
Qed.

Lemma chat_stream_chunks_witness :
  ChatRoute.status (snd (ChatRoute.POST chat_broken_world)) = 200 /\
  exists enqueued,
    ChatRoute.body (snd (ChatRoute.POST chat_broken_world))
      = ChatRoute.Streamed enqueued true /\
    enqueued = ["Hel"; "lo"; LF +:+ LF +:+ "[error] socket hang up"] /\
    Forall (fun s => s <> "") enqueued.
Proof.
  apply (chat_stream_chunks chat_broken_world _ _ eq_refl eq_refl).
Defined.

(** X17.  The text a reader of the body ends up with is every delta of the
    stream, one after the other, followed by the error report if the
    stream threw: leaving out the empty deltas loses nothing. *)
Theorem chat_stream_text
    (w : ChatRoute.World) (msgs : option (list ChatRoute.ChatMessage))
    (up : ChatRoute.Upstream) :
  ChatRoute.w_json w = Ok msgs ->
  ChatRoute.w_create w = Ok up ->
  ChatRoute.body_text (ChatRoute.body (snd (ChatRoute.POST w))) =
  concatenation (ChatRoute.deltas up)
  +:+ match ChatRoute.failure up with
      | Some err => ChatRoute.error_chunk err
      | None => ""
      end.
Proof.
  intros Hj Hc. unfold ChatRoute.POST. rewrite Hj, Hc. simpl.
  unfold ChatRoute.start, ChatRoute.deltas. rewrite drain_filter. simpl.
  destruct (ChatRoute.failure up) as [err|]; simpl.
  - rewrite concatenation_app, concatenation_filter. simpl.
    rewrite append_empty_r. reflexivity.
  - rewrite concatenation_filter, append_empty_r. reflexivity.
Qed.

Lemma chat_stream_text_witness :
  ChatRoute.body_text (ChatRoute.body (snd (ChatRoute.POST chat_broken_world))) =
  "Hello" +:+ LF +:+ LF +:+ "[error] socket hang up".
Proof.
  apply (chat_stream_text chat_broken_world _ _ eq_refl eq_refl).
Defined.

(** * The chat page *)

Lemma has_char_append (x : ascii) (a b : string) :
  has_char x (a +:+ b) = has_char x a || has_char x b.
Proof.
  induction a as [|y a IH]; [reflexivity|].
  rewrite append_cons. simpl. rewrite IH. apply orb_assoc.
Qed.

Lemma tag_at_chars (s : string) :
  ChatPage.tag_at s = true ->
  has_char "<"%char s = true /\ has_char ">"%char s = true.
Proof.
  destruct s as [|x [|y rest]]; try discriminate. simpl.
  destruct (Ascii.eqb_spec x "<"%char) as [->|]; [|discriminate]. simpl.
  intros H. split; [reflexivity|].
  destruct (ChatPage.is_letter y).
  - rewrite H. apply orb_true_r.
  - destruct (Ascii.eqb y "/"%char); [|discriminate].
    destruct rest as [|z rest']; [discriminate|].
    apply andb_true_iff in H. destruct H as [_ H]. simpl. rewrite H.
    rewrite !orb_true_r. reflexivity.
Qed.

Lemma html_chars (s : string) :
  ChatPage.looks_like_html s = true ->
  has_char "<"%char s = true /\ has_char ">"%char s = true.
Proof.
  induction s as [|x s IH].
  - discriminate.
  - intros H. simpl ChatPage.looks_like_html in H.
    apply orb_true_iff in H. destruct H as [H|H].
    + apply tag_at_chars. exact H.
    + destruct (IH H) as [H1 H2]. simpl. rewrite H1, H2, !orb_true_r. auto.
Qed.

Lemma stripHtml_clean (s : string) :
  ChatPage.looks_like_html (ChatPage.stripHtml s) = false.
Proof.
  unfold ChatPage.stripHtml. destruct (ChatPage.looks_like_html s) eqn:H.
  - reflexivity.
  - exact H.
Qed.

Lemma stripHtml_plain (s : string) :
  has_char "<"%char s = false \/ has_char ">"%char s = false ->
  ChatPage.stripHtml s = s.
Proof.
  intros H. unfold ChatPage.stripHtml.
  destruct (ChatPage.looks_like_html s) eqn:Hh; [|reflexivity].
  destruct (html_chars s Hh) as [H1 H2]. destruct H as [H|H]; congruence.
Qed.

(** X18.  What [stripHtml] returns never looks like HTML, and stripping
    twice is the same as stripping once. *)
Theorem stripHtml_never_html (s : string) :
  ChatPage.looks_like_html (ChatPage.stripHtml s) = false /\
  ChatPage.stripHtml (ChatPage.stripHtml s) = ChatPage.stripHtml s.
Proof.
  split; [apply stripHtml_clean|].
  unfold ChatPage.stripHtml at 1. rewrite stripHtml_clean. reflexivity.
Qed.

(** X19.  A text with no [<] in it, or with no [>] in it, passes through
    [stripHtml] unchanged. *)
Theorem stripHtml_keeps_plain_text (s : string) :
  has_char "<"%char s = false \/ has_char ">"%char s = false ->
  ChatPage.stripHtml s = s.
Proof.
  intros H. destruct H as [H|H]; apply stripHtml_plain; [left | right]; exact H.
Qed.

Lemma stripHtml_keeps_plain_text_witness :
  ChatPage.stripHtml "[error] 401 Incorrect API key provided" =
  "[error] 401 Incorrect API key provided".
Proof.
  apply (stripHtml_keeps_plain_text "[error] 401 Incorrect API key provided").
  left. reflexivity.
Defined.

Lemma uint_text_no_lt (d : Decimal.uint) :
  has_char "<"%char (NilEmpty.string_of_uint d) = false.
Proof. induction d; simpl; auto. Qed.

Lemma number_no_lt (n : Z) : has_char "<"%char (number n) = false.
Proof.
  unfold number, NilZero.string_of_int.
  destruct (Z.to_int n) as [d|d]; unfold NilZero.string_of_uint;
    destruct d; try reflexivity;
    rewrite ?uint_text_no_lt; simpl; rewrite ?uint_text_no_lt; reflexivity.
Qed.

(** X20.  The message the chat page shows for a failed request is never
    empty and never looks like HTML, whatever the status and the body of
    the response. *)
Theorem failure_message_presentable (st : Z) (txt : string) :
  ChatPage.failure_message st txt <> "" /\
  ChatPage.looks_like_html (ChatPage.failure_message st txt) = false.
Proof.
  unfold ChatPage.failure_message. destruct (st =? 429).
  - split; [discriminate | reflexivity].
  - destruct (truthy (ChatPage.stripHtml txt)) eqn:Ht.
    + split; [apply truthy_true; exact Ht | apply stripHtml_clean].
    + split; [discriminate|].
      destruct (ChatPage.looks_like_html ("HTTP " +:+ number st)) eqn:Hh;
        [|reflexivity].
      destruct (html_chars _ Hh) as [H1 _].
      rewrite has_char_append, number_no_lt in H1. discriminate H1.
Qed.

(** X21.  When the chat route fails before streaming, it answers 400, and
    the chat page shows the route's text, ["[error] "] followed by the
    message of the error, word for word, as long as that message contains
    no [<]. *)
Theorem chat_error_shown_verbatim (w : ChatRoute.World) (e : Thrown) :
  ChatRoute.w_json w = Throw e \/
  (exists msgs, ChatRoute.w_json w = Ok msgs /\ ChatRoute.w_create w = Throw e) ->
  has_char "<"%char (message e) = false ->
  ChatRoute.status (snd (ChatRoute.POST w)) = 400 /\
  ChatPage.failure_message
    (ChatRoute.status (snd (ChatRoute.POST w)))
    (ChatRoute.body_text (ChatRoute.body (snd (ChatRoute.POST w))))
  = "[error] " +:+ message e.
Proof.
  intros Hfail Hlt.
  assert (snd (ChatRoute.POST w) = ChatRoute.POST_catch e) as ->.
  { unfold ChatRoute.POST.
    destruct Hfail as [-> | (msgs & -> & ->)]; reflexivity. }
  simpl. split; [reflexivity|].
  unfold ChatPage.failure_message. simpl.
  rewrite (stripHtml_plain ("[error] " +:+ message e)).
  - reflexivity.
  - left. rewrite has_char_append, Hlt. reflexivity.
Qed.

Lemma chat_error_shown_verbatim_witness :
  ChatRoute.status (snd (ChatRoute.POST chat_refused_world)) = 400 /\
  ChatPage.failure_message
    (ChatRoute.status (snd (ChatRoute.POST chat_refused_world)))
    (ChatRoute.body_text (ChatRoute.body (snd (ChatRoute.POST chat_refused_world))))
  = "[error] " +:+ "401 Incorrect API key provided".
Proof.
  apply (chat_error_shown_verbatim chat_refused_world
           (Error "401 Incorrect API key provided")).
  - right. exists None. split; reflexivity.
  - reflexivity.
Defined.
